(** * The Dahua RPC2 client of [custom_components/dahua/rpc2.py]

    A shallow embedding of [DahuaRpc2Client]: the request envelope, the
    two-phase login with its MD5 digest, logout, the typed operations and
    [CoaxialControlIOStatus], followed by the properties of the client that
    the specification states.

    Python values are the values [json.loads] produces ([None] is [JNull]);
    a [dict] with string keys is a [gmap string json]; a [str] is the
    [string] of its UTF-8 bytes, so that [s.encode('utf-8')] is the list of
    the bytes of [s].  The coroutines run one at a time: a method is a
    function from the state before the call to an outcome and the state
    after it. *)

From Stdlib Require Import ZArith Floats.PrimFloat.
From Stdlib Require Import Numbers.DecimalString.
From stdpp Require Import gmap strings list fin_maps.

Set Warnings "-register-all".

(** * hashlib.md5 (RFC 1321) on byte lists *)

Module MD5.
Local Open Scope Z_scope.

Definition add32 (a b : Z) : Z := (a + b) mod 2 ^ 32.
Definition not32 (a : Z) : Z := Z.lxor a 0xFFFFFFFF.
Definition rotl32 (x c : Z) : Z :=
  Z.lor (Z.shiftl x c mod 2 ^ 32) (Z.shiftr x (32 - c)).

(** [K[i] = floor(2^32 * abs(sin(i + 1)))] *)
Definition K : list Z :=
  [ 0xd76aa478; 0xe8c7b756; 0x242070db; 0xc1bdceee;
    0xf57c0faf; 0x4787c62a; 0xa8304613; 0xfd469501;
    0x698098d8; 0x8b44f7af; 0xffff5bb1; 0x895cd7be;
    0x6b901122; 0xfd987193; 0xa679438e; 0x49b40821;
    0xf61e2562; 0xc040b340; 0x265e5a51; 0xe9b6c7aa;
    0xd62f105d; 0x02441453; 0xd8a1e681; 0xe7d3fbc8;
    0x21e1cde6; 0xc33707d6; 0xf4d50d87; 0x455a14ed;
    0xa9e3e905; 0xfcefa3f8; 0x676f02d9; 0x8d2a4c8a;
    0xfffa3942; 0x8771f681; 0x6d9d6122; 0xfde5380c;
    0xa4beea44; 0x4bdecfa9; 0xf6bb4b60; 0xbebfbc70;
    0x289b7ec6; 0xeaa127fa; 0xd4ef3085; 0x04881d05;
    0xd9d4d039; 0xe6db99e5; 0x1fa27cf8; 0xc4ac5665;
    0xf4292244; 0x432aff97; 0xab9423a7; 0xfc93a039;
    0x655b59c3; 0x8f0ccc92; 0xffeff47d; 0x85845dd1;
    0x6fa87e4f; 0xfe2ce6e0; 0xa3014314; 0x4e0811a1;
    0xf7537e82; 0xbd3af235; 0x2ad7d2bb; 0xeb86d391 ].

(** per-round left rotations *)
Definition S : list Z :=
  [ 7; 12; 17; 22; 7; 12; 17; 22; 7; 12; 17; 22; 7; 12; 17; 22;
    5;  9; 14; 20; 5;  9; 14; 20; 5;  9; 14; 20; 5;  9; 14; 20;
    4; 11; 16; 23; 4; 11; 16; 23; 4; 11; 16; 23; 4; 11; 16; 23;
    6; 10; 15; 21; 6; 10; 15; 21; 6; 10; 15; 21; 6; 10; 15; 21 ].

Record state := State { sa : Z; sb : Z; sc : Z; sd : Z }.

Definition init : state :=
  State 0x67452301 0xefcdab89 0x98badcfe 0x10325476.

(** the little-endian 32-bit word at byte offset [4 * j] of a block *)
Definition word (block : list Z) (j : nat) : Z :=
  let b k := List.nth (4 * j + k) block 0 in
  b 0%nat + Z.shiftl (b 1%nat) 8 + Z.shiftl (b 2%nat) 16 + Z.shiftl (b 3%nat) 24.

Definition step (block : list Z) (st : state) (i : nat) : state :=
  let '(State a b c d) := st in
  let '(f, g) :=
    if (i <? 16)%nat then
      (Z.lor (Z.land b c) (Z.land (not32 b) d), i)
    else if (i <? 32)%nat then
      (Z.lor (Z.land d b) (Z.land (not32 d) c), ((5 * i + 1) mod 16)%nat)
    else if (i <? 48)%nat then
      (Z.lxor b (Z.lxor c d), ((3 * i + 5) mod 16)%nat)
    else
      (Z.lxor c (Z.lor b (not32 d)), ((7 * i) mod 16)%nat) in
  let f' := add32 (add32 (add32 f a) (List.nth i K 0)) (word block g) in
  State d (add32 b (rotl32 f' (List.nth i S 0))) b c.

Definition compress (st : state) (block : list Z) : state :=
  let st' := fold_left (step block) (seq 0 64) st in
  State (add32 (sa st) (sa st')) (add32 (sb st) (sb st'))
        (add32 (sc st) (sc st')) (add32 (sd st) (sd st')).

(** [n] little-endian bytes of [x] *)
Fixpoint le_bytes (n : nat) (x : Z) : list Z :=
  match n with
  | O => []
  | Datatypes.S n' => x mod 256 :: le_bytes n' (x / 256)
  end.

(** the message, a 1 bit, zeros up to 56 modulo 64, the bit length *)
Definition pad (msg : list Z) : list Z :=
  let len := Z.of_nat (length msg) in
  msg ++ [0x80] ++ repeat 0 (Z.to_nat ((55 - len) mod 64))
      ++ le_bytes 8 ((8 * len) mod 2 ^ 64).

Fixpoint blocks (n : nat) (l : list Z) : list (list Z) :=
  match n with
  | O => []
  | Datatypes.S n' => firstn 64 l :: blocks n' (skipn 64 l)
  end.

Definition digest (msg : list Z) : list Z :=
  let p := pad msg in
  let st := fold_left compress (blocks (length p / 64) p) init in
  le_bytes 4 (sa st) ++ le_bytes 4 (sb st)
    ++ le_bytes 4 (sc st) ++ le_bytes 4 (sd st).

Definition hex_digit (n : Z) : Ascii.ascii :=
  Ascii.ascii_of_N (Z.to_N (if n <? 10 then 48 + n else 87 + n)).

Fixpoint hex (bs : list Z) : string :=
  match bs with
  | [] => EmptyString
  | b :: bs' =>
      String (hex_digit (b / 16)) (String (hex_digit (b mod 16)) (hex bs'))
  end.

End MD5.

(** [s.encode('utf-8')] *)
Fixpoint encode_utf8 (s : string) : list Z :=
  match s with
  | EmptyString => []
  | String c s' => Z.of_N (Ascii.N_of_ascii c) :: encode_utf8 s'
  end.

(** [hashlib.md5(data).hexdigest()] *)
Definition md5_hexdigest (data : list Z) : string := MD5.hex (MD5.digest data).

(** [str.upper] on ASCII text (it is applied to hex digests only) *)
Definition upper_char (c : Ascii.ascii) : Ascii.ascii :=
  let n := Ascii.N_of_ascii c in
  if ((97 <=? n) && (n <=? 122))%N then Ascii.ascii_of_N (n - 32) else c.

Fixpoint upper (s : string) : string :=
  match s with
  | EmptyString => EmptyString
  | String c s' => String (upper_char c) (upper s')
  end.

(** * Python values *)

Inductive json : Type :=
  | JNull
  | JBool (b : bool)
  | JInt (n : Z)
  | JFloat (x : float)
  | JStr (s : string)
  | JList (l : list json)
  | JDict (d : gmap string json).

(** [bool(v)]: [None], [False], zero, and the empty string, list and dict
    are falsy *)
Definition truthy (v : json) : bool :=
  match v with
  | JNull => false
  | JBool b => b
  | JInt n => negb (n =? 0)%Z
  | JFloat x => negb (PrimFloat.eqb x 0)
  | JStr s => negb (String.eqb s "")
  | JList l => negb (length l =? 0)%nat
  | JDict d => negb (size d =? 0)%nat
  end.

(** [v is None] *)
Definition is_None (v : json) : bool :=
  match v with JNull => true | _ => false end.

(** [v is False] and [v is True]: the two bool objects themselves *)
Definition is_False (v : json) : bool :=
  match v with JBool false => true | _ => false end.

Definition is_True (v : json) : bool :=
  match v with JBool true => true | _ => false end.

(** [v == True]: a bool is an int, so [1] and [1.0] are equal to [True] *)
Definition eq_True (v : json) : bool :=
  match v with
  | JBool b => b
  | JInt n => (n =? 1)%Z
  | JFloat x => PrimFloat.eqb x 1
  | _ => false
  end.

(** [v == s] for a string literal [s] *)
Definition eq_str (v : json) (s : string) : bool :=
  match v with JStr s' => String.eqb s' s | _ => false end.

(** [str(n)] for an int *)
Definition str_int (n : Z) : string := NilZero.string_of_int (Z.to_int n).

(** * Exceptions and outcomes *)

Inductive exn : Type :=
  | ValueError (msg : string)
  | ConnectionError (msg : string)
  | AttributeError
  | KeyError (key : string)
  | TypeError
  | ClientError (msg : string).   (* what the HTTP session raises *)

Inductive outcome (A : Type) : Type :=
  | Return (a : A)
  | Raise (e : exn).
Arguments Return {A} a.
Arguments Raise {A} e.

#[global] Instance outcome_ret : MRet outcome := fun A a => Return a.

#[global] Instance outcome_bind : MBind outcome := fun A B f o =>
  match o with
  | Return a => f a
  | Raise e => Raise e
  end.

(** [v.get(key)]: only a dict has [get] *)
Definition py_get (v : json) (key : string) : outcome json :=
  match v with
  | JDict d => Return (default JNull (d !! key))
  | _ => Raise AttributeError
  end.

(** [v[key]] for a string [key]: a missing key of a dict is a [KeyError];
    a list or a str takes no string index and the other values are not
    subscriptable *)
Definition getitem (v : json) (key : string) : outcome json :=
  match v with
  | JDict d =>
      match d !! key with
      | Some x => Return x
      | None => Raise (KeyError key)
      end
  | _ => Raise TypeError
  end.

(** * The client and the wire *)

Record client := Client {
  _username : string;
  _password : string;
  _rtsp_port : Z;
  _session_id : json;
  _id : Z;
  _base : string;
  logged_in : bool
}.

Definition set_session_id (v : json) (c : client) : client :=
  Client (_username c) (_password c) (_rtsp_port c) v (_id c) (_base c)
         (logged_in c).

Definition set_id (n : Z) (c : client) : client :=
  Client (_username c) (_password c) (_rtsp_port c) (_session_id c) n
         (_base c) (logged_in c).

Definition set_logged_in (b : bool) (c : client) : client :=
  Client (_username c) (_password c) (_rtsp_port c) (_session_id c) (_id c)
         (_base c) b.

(** [DahuaRpc2Client.__init__] *)
Definition __init__ (username password address : string) (port rtsp_port : Z)
  : client :=
  let protocol := if (port =? 443)%Z then "https" else "http" in
  {| _username := username;
     _password := password;
     _rtsp_port := rtsp_port;
     _session_id := JNull;
     _id := 0;
     _base := protocol +:+ "://" +:+ address +:+ ":" +:+ str_int port;
     logged_in := false |}.

(** One [self._session.post(url, data=json.dumps(data))]: the body is the
    serialisation of [post_data], which the log keeps as the dict itself. *)
Record post := Post { post_url : string; post_data : gmap string json }.

(** What the HTTP session answers: it raises, or it gives a response with a
    status and a body text. *)
Inductive reply : Type :=
  | Failure (e : exn)
  | Response (status : Z) (text : string).

(** The state a method runs in: the client object and the posts made so
    far, oldest first. *)
Record world := World { self : client; wire : list post }.

Definition M (A : Type) : Type := world -> outcome A * world.

#[global] Instance M_ret : MRet M := fun A a w => (Return a, w).

#[global] Instance M_bind : MBind M := fun A B f m w =>
  match m w with
  | (Return a, w') => f a w'
  | (Raise e, w') => (Raise e, w')
  end.

Definition raise {A : Type} (e : exn) : M A := fun w => (Raise e, w).

(** an expression that may raise, evaluated inside a method *)
Definition lift {A : Type} (o : outcome A) : M A := fun w => (o, w).

Definition get_self : M client := fun w => (Return (self w), w).

Definition modify_self (f : client -> client) : M unit :=
  fun w => (Return tt, World (f (self w)) (wire w)).

(** [try: body except Exception as e: handler e] *)
Definition try_except {A : Type} (body : M A) (handler : exn -> M A) : M A :=
  fun w =>
    match body w with
    | (Return a, w') => (Return a, w')
    | (Raise e, w') => handler e w'
    end.

(** [CoaxialControlIOStatus], with its [__post_init__] *)
Record CoaxialControlIOStatus := Status {
  speaker : bool;
  white_light : bool;
  api_response : json
}.

Definition new_CoaxialControlIOStatus (api_response : json)
  : outcome CoaxialControlIOStatus :=
  if is_None api_response then mret (Status false false api_response)
  else
    sp ← (p ← getitem api_response "params";
          st ← getitem p "status";
          getitem st "Speaker");
    wl ← (p ← getitem api_response "params";
          st ← getitem p "status";
          getitem st "WhiteLight");
    mret (Status (eq_str sp "On") (eq_str wl "On") api_response).

(** * A scripted device for the examples

    Bodies are named instead of spelled out as JSON text, and the decoder
    knows these names only. *)

Module Fixture.

Definition loads (text : string) : option json :=
  if String.eqb text "challenge" then
    Some (JDict {[ "session" := JStr "S1";
                   "params" := JDict {[ "realm" := JStr "ABCDEF";
                                        "random" := JStr "123456" ]} ]})
  else if String.eqb text "granted" then
    Some (JDict {[ "result" := JBool true ]})
  else if String.eqb text "refused" then
    Some (JDict {[ "result" := JBool false ]})
  else if String.eqb text "unclear" then
    Some (JDict {[ "error" := JStr "busy" ]})
  else if String.eqb text "time" then
    Some (JDict {[ "result" := JBool true;
                   "params" := JDict {[ "time" := JStr "2024-01-01 00:00:00" ]} ]})
  else if String.eqb text "no time" then
    Some (JDict {[ "result" := JBool true; "params" := JDict ∅ ]})
  else if String.eqb text "status" then
    Some (JDict {[ "result" := JBool true;
                   "params" :=
                     JDict {[ "status" :=
                       JDict {[ "Speaker" := JStr "On";
                                "WhiteLight" := JStr "Off" ]} ]} ]})
  else None.

(** [repr] of the scalars; containers and floats are not spelled out. *)
Definition repr (v : json) : string :=
  match v with
  | JNull => "None"
  | JBool true => "True"
  | JBool false => "False"
  | JInt n => str_int n
  | JStr s => "'" +:+ s +:+ "'"
  | _ => "..."
  end.

(** The session that answers the [n]-th post with the [n]-th reply. *)
Definition scripted (answers : list reply) (log : list post) : reply :=
  List.nth (length log - 1) answers (Failure (ClientError "connection closed")).

Definition camera : client := __init__ "admin" "secret" "192.168.1.108" 80 554.

Definition start : world := World camera [].

(** The same client holding a token, with two requests behind it. *)
Definition in_session : world :=
  World (Client "admin" "secret" 554 (JStr "S0") 2 "http://192.168.1.108:80"
                true) [].

(** The decoder with the bodies of the further examples. *)
Definition loads_more (text : string) : option json :=
  if String.eqb text "serial" then
    Some (JDict {[ "result" := JBool true;
                   "params" := JDict {[ "sn" := JStr "6J0A1B2PAG00001" ]} ]})
  else if String.eqb text "config" then
    Some (JDict {[ "result" := JBool true;
                   "params" :=
                     JDict {[ "table" :=
                       JDict {[ "MachineName" := JStr "Front door" ]} ]} ]})
  else if String.eqb text "a list" then Some (JList [JInt 1; JInt 2])
  else if String.eqb text "zero" then Some (JDict {[ "result" := JInt 0 ]})
  else if String.eqb text "one" then Some (JDict {[ "result" := JInt 1 ]})
  else if String.eqb text "no session" then
    Some (JDict {[ "params" := JDict {[ "realm" := JStr "ABCDEF";
                                        "random" := JStr "123456" ]} ]})
  else if String.eqb text "no realm" then
    Some (JDict {[ "session" := JStr "S1"; "params" := JDict ∅ ]})
  else loads text.

End Fixture.

(** * DahuaRpc2Client *)

Section DahuaRpc2Client.

(** [json.loads]: [None] stands for [json.JSONDecodeError]. *)
Variable json_loads : string -> option json.

(** The builtin [repr] on decoded values. *)
Variable repr : json -> string.

(** The HTTP session: its answer to the newest post of a log. *)
Variable session : list post -> reply.

(** [f"{v}"], that is [str(v)]: a str is itself, every other decoded value
    prints as its [repr]. *)
Definition format (v : json) : string :=
  match v with
  | JStr s => s
  | _ => repr v
  end.

(** [async with self._session.post(url, data=json.dumps(data)) as resp:
     await resp.text()] *)
Definition session_post (url : string) (data : gmap string json)
  : M (Z * string) :=
  fun w =>
    let w' := World (self w) (wire w ++ [Post url data]) in
    match session (wire w') with
    | Failure e => (Raise e, w')
    | Response status text => (Return (status, text), w')
    end.

(** The dict [request] builds (lines 51-59), from the client after the
    increment; [data.update(extra)] is the union in which [extra] wins. *)
Definition envelope (c : client) (method : string) (params object_id : json)
    (extra : option (gmap string json)) : gmap string json :=
  let data : gmap string json :=
    {[ "method" := JStr method; "id" := JInt (_id c) ]} in
  let data := if is_None params then data else <["params" := params]> data in
  let data :=
    if truthy object_id then <["object" := object_id]> data else data in
  let data :=
    match extra with
    | Some e => e ∪ data
    | None => data
    end in
  let data :=
    if truthy (_session_id c) then <["session" := _session_id c]> data
    else data in
  data.

(** [if not url: url = f"{self._base}/RPC2"] *)
Definition target (c : client) (url : option string) : string :=
  match url with
  | Some u => if String.eqb u "" then _base c +:+ "/RPC2" else u
  | None => _base c +:+ "/RPC2"
  end.

(** [DahuaRpc2Client.request] (rpc2.py, lines 48-83).  An argument left at
    its default [None] is [JNull], or [None] for [extra] and [url]; the
    [except] clause logs and raises the same exception again. *)
Definition request (method : string) (params object_id : json)
    (extra : option (gmap string json)) (url : option string)
    (verify_result : bool) : M json :=
  modify_self (fun c => set_id (_id c + 1) c);;
  c ← get_self;
  let data := envelope c method params object_id extra in
  let url := target c url in
  try_except
    ('(status, text_response) ← session_post url data;
     resp_json ←
       match json_loads text_response with
       | Some v => mret v
       | None => raise (ValueError "Failed to decode JSON response")
       end;
     failed ←
       (if verify_result then
          result ← lift (py_get resp_json "result");
          mret (is_False result)
        else mret false);
     if failed : bool then
       raise (ConnectionError ("API call failed: " +:+ format resp_json))
     else mret resp_json)
    (fun e => raise e).

(** [DahuaRpc2Client.current_time] (lines 147-152) *)
Definition current_time : M json :=
  response ← request "global.getCurrentTime" JNull JNull None None true;
  lift (p ← getitem response "params"; getitem p "time").

(** The digest of the hash phase, from the values of the challenge. *)
Definition pass_hash (c : client) (realm random : json) : string :=
  let pwd_phrase :=
    _username c +:+ ":" +:+ format realm +:+ ":" +:+ _password c in
  let pwd_hash := upper (md5_hexdigest (encode_utf8 pwd_phrase)) in
  let pass_phrase :=
    _username c +:+ ":" +:+ format random +:+ ":" +:+ pwd_hash in
  upper (md5_hexdigest (encode_utf8 pass_phrase)).

(** The [params] of the challenge phase and of the hash phase. *)
Definition challenge_params (c : client) : json :=
  JDict {[ "userName" := JStr (_username c);
           "password" := JStr "";
           "clientType" := JStr "Dahua3.0-Web3.0" ]}.

Definition hash_params (c : client) (pass_hash : string) : json :=
  JDict {[ "userName" := JStr (_username c);
           "password" := JStr pass_hash;
           "clientType" := JStr "Dahua3.0-Web3.0";
           "authorityType" := JStr "Default";
           "passwordType" := JStr "Default" ]}.

(** [DahuaRpc2Client.login] (lines 85-129); [self._session] on line 124
    is an expression without effect. *)
Definition login : M json :=
  modify_self (set_session_id JNull);;
  modify_self (set_id 0);;
  c ← get_self;
  let url := _base c +:+ "/RPC2_Login" in
  let method := "global.login" in
  let params := challenge_params c in
  r ← request method params JNull None (Some url) false;
  sid ← lift (getitem r "session");
  modify_self (set_session_id sid);;
  realm ← lift (p ← getitem r "params"; getitem p "realm");
  random ← lift (p ← getitem r "params"; getitem p "random");
  let params := hash_params c (pass_hash c realm random) in
  response ← request method params JNull None (Some url) true;
  result ← lift (py_get response "result");
  if eq_True result then
    modify_self (set_logged_in true);;
    current_time;;
    mret response
  else
    mret (JBool false).

(** [DahuaRpc2Client.logout] (lines 131-145) *)
Definition logout : M bool :=
  try_except
    (response ← request "global.logout" JNull JNull None None true;
     result ← lift (py_get response "result");
     if is_True result then mret true else mret false)
    (fun e => mret false).

(** [get_serial_number], [get_config] and [get_device_name]
    (lines 154-173) *)
Definition get_serial_number : M json :=
  response ← request "magicBox.getSerialNo" JNull JNull None None true;
  lift (p ← getitem response "params"; getitem p "sn").

Definition get_config (params : json) : M json :=
  response ← request "configManager.getConfig" params JNull None None true;
  lift (getitem response "params").

Definition get_device_name : M json :=
  data ← get_config (JDict {[ "name" := JStr "General" ]});
  lift (t ← getitem data "table"; getitem t "MachineName").

(** The [params] of the status query and of the control request. *)
Definition status_params (channel : Z) : json :=
  JDict {[ "channel" := JInt channel ]}.

Definition control_params (channel type io trigger_mode : Z) : json :=
  JDict {[ "channel" := JInt channel;
           "info" := JList [ JDict {[ "Type" := JInt type;
                                      "IO" := JInt io;
                                      "TriggerMode" := JInt trigger_mode ]} ] ]}.

(** [get_coaxial_control_io_status] and [set_coaxial_control_io_status]
    (lines 175-190) *)
Definition get_coaxial_control_io_status (channel : Z)
  : M CoaxialControlIOStatus :=
  login;;
  response ← request "CoaxialControlIO.getStatus" (status_params channel)
               JNull None None true;
  lift (new_CoaxialControlIOStatus response).

Definition set_coaxial_control_io_status (channel type io trigger_mode : Z)
  : M CoaxialControlIOStatus :=
  login;;
  request "CoaxialControlIO.control"
    (control_params channel type io trigger_mode) JNull None None true;;
  get_coaxial_control_io_status channel.

(** ** What the statements below talk about *)

(** The outcome of [request] as a function of the session's answer. *)
Definition classify (verify_result : bool) (r : reply) : outcome json :=
  match r with
  | Failure e => Raise e
  | Response _ text_response =>
      match json_loads text_response with
      | None => Raise (ValueError "Failed to decode JSON response")
      | Some resp_json =>
          if verify_result then
            match py_get resp_json "result" with
            | Raise e => Raise e
            | Return result =>
                if is_False result then
                  Raise (ConnectionError
                           ("API call failed: " +:+ format resp_json))
                else Return resp_json
            end
          else Return resp_json
      end
  end.

(** The post a call of [request] makes from client [c]. *)
Definition request_post (c : client) (method : string)
    (params object_id : json) (extra : option (gmap string json))
    (url : option string) : post :=
  let c' := set_id (_id c + 1) c in
  Post (target c' url) (envelope c' method params object_id extra).

(** The posts of [login]: the challenge, the hash phase once the
    challenge gave session token [sid], and the time query after it. *)
Definition challenge_post (c : client) : post :=
  request_post (set_id 0 (set_session_id JNull c)) "global.login"
    (challenge_params c) JNull None (Some (_base c +:+ "/RPC2_Login")).

Definition hash_post (c : client) (sid realm random : json) : post :=
  request_post (set_id 1 (set_session_id sid c)) "global.login"
    (hash_params c (pass_hash c realm random)) JNull None
    (Some (_base c +:+ "/RPC2_Login")).

Definition time_post (c : client) (sid : json) : post :=
  request_post (set_id 2 (set_session_id sid c)) "global.getCurrentTime"
    JNull JNull None None.

(** The public methods, as calls made one after the other on one client;
    what a call returns or raises is left to its caller. *)
Inductive call : Type :=
  | call_request (method : string) (params object_id : json)
      (extra : option (gmap string json)) (url : option string)
      (verify_result : bool)
  | call_login
  | call_logout
  | call_current_time
  | call_get_serial_number
  | call_get_config (params : json)
  | call_get_device_name
  | call_get_coaxial_control_io_status (channel : Z)
  | call_set_coaxial_control_io_status (channel type io trigger_mode : Z).

Definition run_call (w : world) (k : call) : world :=
  match k with
  | call_request method params object_id extra url verify_result =>
      snd (request method params object_id extra url verify_result w)
  | call_login => snd (login w)
  | call_logout => snd (logout w)
  | call_current_time => snd (current_time w)
  | call_get_serial_number => snd (get_serial_number w)
  | call_get_config params => snd (get_config params w)
  | call_get_device_name => snd (get_device_name w)
  | call_get_coaxial_control_io_status channel =>
      snd (get_coaxial_control_io_status channel w)
  | call_set_coaxial_control_io_status channel type io trigger_mode =>
      snd (set_coaxial_control_io_status channel type io trigger_mode w)
  end.

Definition run_calls (ks : list call) (w : world) : world :=
  fold_left run_call ks w.


(** ** How the ids of a run follow one another *)

(** The ids of the posts [sent] after counter value [prev]: each is one
    more than the one before, or it is the challenge [chal] of a login,
    whose id is 1; [final] is the last one. *)
Fixpoint follows (chal : post) (prev : Z) (sent : list post) (final : Z)
  : Prop :=
  match sent with
  | [] => final = prev
  | p :: sent' =>
      ∃ n, post_data p !! "id" = Some (JInt n)
           ∧ (n = (prev + 1)%Z ∨ (n = 1%Z ∧ p = chal))
           ∧ follows chal n sent' final
  end.

(** A call that leaves the [id] of its envelope alone. *)
Definition keeps_id (k : call) : Prop :=
  match k with
  | call_request _ _ _ (Some extra) _ _ => extra !! "id" = None
  | _ => True
  end.

(** From [w] to [w'] the client kept its name and address, and the posts
    added to the wire carry ids that follow from the counter of [w] and
    end at the counter of [w']. *)
Definition advances (w w' : world) : Prop :=
  _username (self w') = _username (self w)
  ∧ _base (self w') = _base (self w)
  ∧ ∃ sent, wire w' = wire w ++ sent
            ∧ follows (challenge_post (self w)) (_id (self w)) sent
                      (_id (self w')).

Definition orderly {A : Type} (m : M A) : Prop :=
  ∀ w, advances w (snd (m w)).

(** ** The phases of a login *)

(** The challenge phase of a login from [w] is answered with a body that
    decodes to a value with token [sid], realm [realm] and nonce
    [random]. *)
Definition challenged (w : world) (sid realm random : json) : Prop :=
  ∃ status text r,
    session (wire w ++ [challenge_post (self w)]) = Response status text
    ∧ json_loads text = Some r
    ∧ getitem r "session" = Return sid
    ∧ (p ← getitem r "params"; getitem p "realm") = Return realm
    ∧ (p ← getitem r "params"; getitem p "random") = Return random.

(** The hash phase that follows is answered with a body that decodes to
    [response]. *)
Definition hash_answered (w : world) (sid realm random response : json)
  : Prop :=
  ∃ status text,
    session (wire w ++ [challenge_post (self w);
                        hash_post (self w) sid realm random])
    = Response status text
    ∧ json_loads text = Some response.

(** [response['params']['time']] *)
Definition params_time (response : json) : outcome json :=
  p ← getitem response "params"; getitem p "time".

(** The posts [login] makes: [global.login] and [global.getCurrentTime]. *)
Definition login_traffic (p : post) : Prop :=
  post_data p !! "method" = Some (JStr "global.login")
  ∨ post_data p !! "method" = Some (JStr "global.getCurrentTime").

(** The digests as the specification writes them:
    [pwdHash = upperHex(MD5("{username}:{realm}:{password}"))] and
    [passHash = upperHex(MD5("{username}:{random}:{pwdHash}"))]. *)
Definition spec_pwd_hash (username realm password : string) : string :=
  upper (md5_hexdigest
           (encode_utf8 (username +:+ ":" +:+ realm +:+ ":" +:+ password))).

Definition spec_pass_hash (username random pwd_hash : string) : string :=
  upper (md5_hexdigest
           (encode_utf8 (username +:+ ":" +:+ random +:+ ":" +:+ pwd_hash))).

(** ** What the methods leave as it is *)

(** From [w] to [w'] the configuration of the client is the same, and
    [logged_in] has not gone back to [False]. *)
Definition stable (w w' : world) : Prop :=
  _username (self w') = _username (self w)
  ∧ _password (self w') = _password (self w)
  ∧ _rtsp_port (self w') = _rtsp_port (self w)
  ∧ _base (self w') = _base (self w)
  ∧ (logged_in (self w) = true → logged_in (self w') = true).

Definition steady {A : Type} (m : M A) : Prop :=
  ∀ w, stable w (snd (m w)).

(** The keys that [request] itself may put in an envelope. *)
Definition envelope_keys : list string :=
  ["method"; "id"; "params"; "object"; "session"].

(** The characters of an upper-case hexadecimal digest. *)
Definition is_upper_hex (c : Ascii.ascii) : bool :=
  let n := Ascii.N_of_ascii c in
  (((48 <=? n) && (n <=? 57)) || ((65 <=? n) && (n <=? 70)))%N.

Fixpoint all_chars (f : Ascii.ascii → bool) (s : string) : bool :=
  match s with
  | EmptyString => true
  | String c s' => f c && all_chars f s'
  end.

(** A method respects a relation between the state before it and the
    state after it. *)
Definition respects (R : relation world) {A : Type} (m : M A) : Prop :=
  ∀ w, R w (snd (m w)).

(** The two addresses of the device. *)
Definition device_url (base : string) (p : post) : Prop :=
  post_url p = base +:+ "/RPC2" ∨ post_url p = base +:+ "/RPC2_Login".

(** From [w] to [w'] the posts added went to the device of the client. *)
Definition homebound (w w' : world) : Prop :=
  _base (self w') = _base (self w)
  ∧ ∃ sent, wire w' = wire w ++ sent
            ∧ Forall (device_url (_base (self w))) sent.

(** A call that names no address of its own. *)
Definition no_url (k : call) : Prop :=
  match k with
  | call_request _ _ _ _ (Some (String _ _)) _ => False
  | _ => True
  end.

(** [s.startswith(p)] *)
Fixpoint startswith (s p : string) {struct p} : bool :=
  match p, s with
  | EmptyString, _ => true
  | String a p', String b s' => Ascii.eqb a b && startswith s' p'
  | String _ _, EmptyString => false
  end.

(** * Properties *)

(** ** The transport layer *)

Lemma request_eq method params object_id extra url verify_result w :
  request method params object_id extra url verify_result w
  = let p := request_post (self w) method params object_id extra url in
    (classify verify_result (session (wire w ++ [p])),
     World (set_id (_id (self w) + 1) (self w)) (wire w ++ [p])).
Proof.
  unfold request, request_post, classify, try_except, session_post.
  unfold mbind, M_bind, modify_self, get_self, mret, M_ret, raise, lift.
  cbn.
  destruct (session _) as [e|status text]; [done|].
  destruct (json_loads text) as [resp|]; [|done].
  destruct verify_result; [|done].
  destruct (py_get resp "result") as [result|e]; [|done].
  by destruct (is_False result).
Qed.

Lemma lookup_insert_bool (m : gmap string json) i j x :
  <[i:=x]> m !! j = if bool_decide (j = i) then Some x else m !! j.
Proof. rewrite lookup_insert. case_decide; case_bool_decide; congruence. Qed.

Lemma lookup_singleton_bool i j (x : json) :
  ({[ i := x ]} : gmap string json) !! j
  = if bool_decide (j = i) then Some x else None.
Proof.
  rewrite lookup_singleton. case_decide; case_bool_decide; congruence.
Qed.

Lemma lookup_insert_if (b : bool) (m : gmap string json) i j x :
  (if b then <[i:=x]> m else m) !! j
  = if bool_decide (j = i) && b then Some x else m !! j.
Proof.
  destruct b; rewrite ?andb_true_r, ?andb_false_r; [|done].
  apply lookup_insert_bool.
Qed.

(** [data.update(extra)]: the keys of [extra] win. *)
Lemma lookup_update (extra : option (gmap string json)) (m : gmap string json) k :
  match extra with Some e => e ∪ m | None => m end !! k
  = match extra ≫= (.!! k) with Some v => Some v | None => m !! k end.
Proof.
  destruct extra as [e|]; simpl; [|done].
  rewrite lookup_union. by destruct (e !! k), (m !! k).
Qed.

Lemma envelope_lookup c method params object_id extra k :
  envelope c method params object_id extra !! k
  = if bool_decide (k = "session") && truthy (_session_id c)
    then Some (_session_id c)
    else match extra ≫= (.!! k) with
         | Some v => Some v
         | None =>
             if bool_decide (k = "object") && truthy object_id
             then Some object_id
             else if bool_decide (k = "params") && negb (is_None params)
             then Some params
             else if bool_decide (k = "method") then Some (JStr method)
             else if bool_decide (k = "id") then Some (JInt (_id c))
             else None
         end.
Proof.
  unfold envelope. cbv zeta.
  rewrite lookup_insert_if, lookup_update, lookup_insert_if.
  destruct (is_None params); rewrite ?andb_true_r, ?andb_false_r; simpl negb;
    rewrite ?lookup_insert_bool, ?lookup_singleton_bool; done.
Qed.


(** ** The request counter *)

Lemma challenge_post_same c c' :
  _username c' = _username c → _base c' = _base c →
  challenge_post c' = challenge_post c.
Proof.
  unfold challenge_post, request_post, envelope, target, challenge_params.
  simpl. by intros -> ->.
Qed.

Lemma follows_app chal prev mid final sent1 sent2 :
  follows chal prev sent1 mid → follows chal mid sent2 final →
  follows chal prev (sent1 ++ sent2) final.
Proof.
  revert prev. induction sent1 as [|p sent1 IH]; simpl; intros prev.
  - by intros ->.
  - intros (n & Hid & Hn & Hrest) H2. exists n. eauto.
Qed.

Lemma advances_refl w : advances w w.
Proof. repeat split. exists []. by rewrite app_nil_r. Qed.

Lemma advances_trans w1 w2 w3 :
  advances w1 w2 → advances w2 w3 → advances w1 w3.
Proof.
  intros (Hu1 & Hb1 & s1 & Hw1 & Hf1) (Hu2 & Hb2 & s2 & Hw2 & Hf2).
  split; [congruence|]. split; [congruence|].
  exists (s1 ++ s2). split.
  - by rewrite Hw2, Hw1, app_assoc.
  - eapply follows_app; [done|].
    by rewrite <- (challenge_post_same (self w1) (self w2)).
Qed.

Lemma orderly_ret {A} (a : A) : orderly (mret a).
Proof. intros w. apply advances_refl. Qed.

Lemma orderly_raise {A} e : orderly (raise (A:=A) e).
Proof. intros w. apply advances_refl. Qed.

Lemma orderly_lift {A} (o : outcome A) : orderly (lift o).
Proof. intros w. apply advances_refl. Qed.

Lemma orderly_get_self : orderly get_self.
Proof. intros w. apply advances_refl. Qed.

Lemma orderly_set_session_id v : orderly (modify_self (set_session_id v)).
Proof. intros w. repeat split. exists []. by rewrite app_nil_r. Qed.

Lemma orderly_set_logged_in b : orderly (modify_self (set_logged_in b)).
Proof. intros w. repeat split. exists []. by rewrite app_nil_r. Qed.

Lemma advances_bind {A B} (m : M A) (f : A → M B) w0 w :
  advances w0 (snd (m w)) → (∀ a, orderly (f a)) →
  advances w0 (snd ((m ≫= f) w)).
Proof.
  intros Hm Hf. unfold mbind, M_bind.
  destruct (m w) as [[a|e] w']; simpl in *; [|done].
  eapply advances_trans; [done|]. apply Hf.
Qed.

Lemma orderly_bind {A B} (m : M A) (f : A → M B) :
  orderly m → (∀ a, orderly (f a)) → orderly (m ≫= f).
Proof. intros Hm Hf w. by apply advances_bind. Qed.

Lemma orderly_try_except {A} (body : M A) handler :
  orderly body → (∀ e, orderly (handler e)) → orderly (try_except body handler).
Proof.
  intros Hb Hh w. unfold try_except. specialize (Hb w).
  destruct (body w) as [[a|e] w']; simpl in *; [done|].
  eapply advances_trans; [done|]. apply Hh.
Qed.

(** The envelope carries the counter unless [extra] brings an [id]. *)
Lemma envelope_id c method params object_id extra :
  (∀ e, extra = Some e → e !! "id" = None) →
  envelope c method params object_id extra !! "id" = Some (JInt (_id c)).
Proof.
  intros Hextra. rewrite envelope_lookup. simpl.
  destruct extra as [e|]; simpl; [|done]. by rewrite (Hextra e).
Qed.

Lemma orderly_request method params object_id extra url verify_result :
  (∀ e, extra = Some e → e !! "id" = None) →
  orderly (request method params object_id extra url verify_result).
Proof.
  intros Hextra w. rewrite request_eq. simpl. repeat split.
  eexists [_]. split; [done|]. simpl.
  exists (_id (self w) + 1)%Z. split; [|by auto].
  unfold request_post. simpl. by apply envelope_id.
Qed.


Lemma bind_modify_self {B} f (k : unit → M B) w :
  (modify_self f ≫= k) w = k tt (World (f (self w)) (wire w)).
Proof. done. Qed.

Lemma bind_get_self {B} (k : client → M B) w :
  (get_self ≫= k) w = k (self w) w.
Proof. done. Qed.

Lemma bind_lift {A B} (o : outcome A) (k : A → M B) w :
  (lift o ≫= k) w
  = match o with Return a => k a w | Raise e => (Raise e, w) end.
Proof. by destruct o. Qed.

Lemma bind_request {B} method params object_id extra url verify_result
    (k : json → M B) w :
  (request method params object_id extra url verify_result ≫= k) w
  = let p := request_post (self w) method params object_id extra url in
    let w' := World (set_id (_id (self w) + 1) (self w)) (wire w ++ [p]) in
    match classify verify_result (session (wire w')) with
    | Return a => k a w'
    | Raise e => (Raise e, w')
    end.
Proof. unfold mbind at 1, M_bind at 1. by rewrite request_eq. Qed.

Lemma orderly_request_plain method params object_id url verify_result :
  orderly (request method params object_id None url verify_result).
Proof. by apply orderly_request. Qed.

Create HintDb orderly.

(** Methods are orderly by their structure: one step of that argument. *)
Ltac orderly_step :=
  lazymatch goal with
  | |- orderly (mbind _ _) => apply orderly_bind
  | |- orderly (if ?b then _ else _) => destruct b
  | |- orderly (request _ _ _ None _ _) => apply orderly_request_plain
  | |- orderly (lift _) => apply orderly_lift
  | |- orderly (mret _) => apply orderly_ret
  | |- orderly (raise _) => apply orderly_raise
  | |- orderly get_self => apply orderly_get_self
  | |- orderly (modify_self (set_session_id _)) => apply orderly_set_session_id
  | |- orderly (modify_self (set_logged_in _)) => apply orderly_set_logged_in
  | |- orderly (try_except _ _) => apply orderly_try_except
  | |- orderly _ => solve [auto with orderly nocore]
  | |- _ => intro
  end.

Ltac orderly := repeat orderly_step.

Lemma orderly_current_time : orderly current_time.
Proof. unfold current_time. orderly. Qed.

#[local] Hint Resolve orderly_current_time : orderly.

Lemma challenge_post_id c :
  post_data (challenge_post c) !! "id" = Some (JInt 1).
Proof.
  unfold challenge_post, request_post. cbn [post_data].
  by rewrite envelope_id.
Qed.

(** [login] resets the counter and then sends the challenge, with id 1. *)
Lemma orderly_login : orderly login.
Proof.
  intros w. unfold login.
  rewrite !bind_modify_self, bind_get_self. cbv zeta.
  apply advances_bind.
  - rewrite request_eq. cbn [snd].
    split; [done|]. split; [done|].
    exists [challenge_post (self w)]. split; [done|].
    exists 1%Z. split; [apply challenge_post_id|]. split; [by right|done].
  - orderly.
Qed.

#[local] Hint Resolve orderly_login : orderly.

Lemma orderly_logout : orderly logout.
Proof. unfold logout. orderly. Qed.

Lemma orderly_get_serial_number : orderly get_serial_number.
Proof. unfold get_serial_number. orderly. Qed.

Lemma orderly_get_config params : orderly (get_config params).
Proof. unfold get_config. orderly. Qed.

#[local] Hint Resolve orderly_get_config : orderly.

Lemma orderly_get_device_name : orderly get_device_name.
Proof. unfold get_device_name. orderly. Qed.

Lemma orderly_get_coaxial_control_io_status channel :
  orderly (get_coaxial_control_io_status channel).
Proof. unfold get_coaxial_control_io_status. orderly. Qed.

#[local] Hint Resolve orderly_get_coaxial_control_io_status : orderly.

Lemma orderly_set_coaxial_control_io_status channel type io trigger_mode :
  orderly (set_coaxial_control_io_status channel type io trigger_mode).
Proof. unfold set_coaxial_control_io_status. orderly. Qed.

Lemma advances_run_call w k : keeps_id k → advances w (run_call w k).
Proof.
  destruct k as [method params object_id extra url verify_result| | | | | | | |];
    simpl; intros Hk.
  - apply orderly_request. intros e ->. done.
  - apply orderly_login.
  - apply orderly_logout.
  - apply orderly_current_time.
  - apply orderly_get_serial_number.
  - apply orderly_get_config.
  - apply orderly_get_device_name.
  - apply orderly_get_coaxial_control_io_status.
  - apply orderly_set_coaxial_control_io_status.
Qed.

Lemma advances_run_calls ks w :
  Forall keeps_id ks → advances w (run_calls ks w).
Proof.
  unfold run_calls. intros Hks. revert w.
  induction Hks as [|k ks Hk _ IH]; intros w; simpl.
  - apply advances_refl.
  - eapply advances_trans; [by apply advances_run_call|]. apply IH.
Qed.


(** ** Login *)

Lemma classify_response verify_result log status text :
  session log = Response status text →
  classify verify_result (session log)
  = match json_loads text with
    | None => Raise (ValueError "Failed to decode JSON response")
    | Some resp_json =>
        if verify_result then
          match py_get resp_json "result" with
          | Raise e => Raise e
          | Return result =>
              if is_False result then
                Raise (ConnectionError
                         ("API call failed: " +:+ format resp_json))
              else Return resp_json
          end
        else Return resp_json
    end.
Proof. by intros ->. Qed.

(** Once the challenge is answered, [login] goes on from the hash phase. *)
Lemma login_hash_phase w sid realm random :
  challenged w sid realm random →
  login w
  = let w2 := World (set_id 2 (set_session_id sid (self w)))
                    (wire w ++ [challenge_post (self w);
                                hash_post (self w) sid realm random]) in
    match classify true (session (wire w2)) with
    | Raise e => (Raise e, w2)
    | Return response =>
        match py_get response "result" with
        | Raise e => (Raise e, w2)
        | Return result =>
            if eq_True result then
              (current_time;; mret response)
                (World (set_logged_in true (self w2)) (wire w2))
            else (Return (JBool false), w2)
        end
    end.
Proof.
  intros (status & text & r & Hsession & Hloads & Hsid & Hrealm & Hrandom).
  unfold login.
  rewrite !bind_modify_self, bind_get_self. cbn [self wire]. cbv zeta.
  rewrite bind_request. cbn [self wire]. cbv zeta.
  change (request_post (set_id 0 (set_session_id JNull (self w))) "global.login"
            (challenge_params _) JNull None _) with (challenge_post (self w)).
  rewrite (classify_response _ _ _ _ Hsession), Hloads.
  rewrite bind_lift, Hsid, bind_modify_self.
  rewrite bind_lift, Hrealm, bind_lift, Hrandom.
  rewrite bind_request. cbn [self wire]. cbv zeta.
  change (request_post _ "global.login" (hash_params _ _) JNull None _)
    with (hash_post (self w) sid realm random).
  rewrite <- app_assoc. cbn [app].
  destruct (classify true _) as [response|e]; [|done].
  rewrite bind_lift.
  destruct (py_get response "result") as [result|e]; [|done].
  destruct (eq_True result); [|done].
  by rewrite bind_modify_self.
Qed.


Lemma bind_assoc {A B C} (m : M A) (f : A → M B) (g : B → M C) w :
  ((m ≫= f) ≫= g) w = (m ≫= λ a, f a ≫= g) w.
Proof. unfold mbind, M_bind. by destruct (m w) as [[a|e] w']. Qed.

Lemma request_post_method c method params object_id url :
  post_data (request_post c method params object_id None url) !! "method"
  = Some (JStr method).
Proof.
  unfold request_post. cbn [post_data]. rewrite envelope_lookup. simpl.
  by destruct (is_None params).
Qed.

Lemma wire_grows {A} (m : M A) w :
  orderly m → ∃ sent, wire (snd (m w)) = wire w ++ sent.
Proof. intros Hm. destruct (Hm w) as (_ & _ & sent & Hsent & _). eauto. Qed.

(** Whatever the device answers, [login] posts the challenge and after it
    nothing but the hash phase and the time query. *)
Lemma login_wire w :
  ∃ rest, wire (snd (login w)) = wire w ++ challenge_post (self w) :: rest
          ∧ Forall login_traffic rest.
Proof.
  unfold login.
  rewrite !bind_modify_self, bind_get_self. cbn [self wire]. cbv zeta.
  rewrite bind_request. cbn [self wire]. cbv zeta.
  change (request_post (set_id 0 (set_session_id JNull (self w))) "global.login"
            (challenge_params _) JNull None _) with (challenge_post (self w)).
  destruct (classify false _) as [r|e]; [|by exists []].
  rewrite bind_lift.
  destruct (getitem r "session") as [sid|e]; [|by exists []].
  rewrite bind_modify_self, bind_lift.
  destruct (_ ≫= _) as [realm|e]; [|by exists []].
  rewrite bind_lift.
  destruct (_ ≫= _) as [random|e]; [|by exists []].
  rewrite bind_request. cbn [self wire]. cbv zeta.
  rewrite <- app_assoc. cbn [app].
  assert (Hlogin : ∀ c params url,
    login_traffic (request_post c "global.login" params JNull None url))
    by (intros; left; apply request_post_method).
  destruct (classify true _) as [response|e];
    [|eexists [_]; split; [done|]; constructor; [apply Hlogin|done]].
  rewrite bind_lift.
  destruct (py_get response "result") as [result|e];
    [|eexists [_]; split; [done|]; constructor; [apply Hlogin|done]].
  destruct (eq_True result);
    [|eexists [_]; split; [done|]; constructor; [apply Hlogin|done]].
  rewrite bind_modify_self. cbn [self wire].
  unfold current_time. rewrite bind_assoc, bind_request. cbn [self wire].
  cbv zeta. rewrite <- app_assoc. cbn [app].
  eexists [_; _]. split.
  - by destruct (classify true _) as [t|e];
      [rewrite bind_lift; destruct (_ ≫= _)|].
  - constructor; [apply Hlogin|].
    constructor; [|done]. right. apply request_post_method.
Qed.


Lemma hash_answered_classify w sid realm random response result :
  hash_answered w sid realm random response →
  py_get response "result" = Return result →
  classify true
    (session (wire w ++ [challenge_post (self w);
                         hash_post (self w) sid realm random]))
  = if is_False result then
      Raise (ConnectionError ("API call failed: " +:+ format response))
    else Return response.
Proof.
  intros (status & text & Hsession & Hloads) Hget.
  by rewrite (classify_response _ _ _ _ Hsession), Hloads, Hget.
Qed.

(** After a hash phase whose [result] equals [True], [login] sets
    [logged_in] and asks for the time. *)
Lemma login_granted w sid realm random response result :
  challenged w sid realm random →
  hash_answered w sid realm random response →
  py_get response "result" = Return result →
  is_False result = false → eq_True result = true →
  login w
  = let sent := [challenge_post (self w);
                 hash_post (self w) sid realm random;
                 time_post (self w) sid] in
    (match classify true (session (wire w ++ sent)) ≫= params_time with
     | Return _ => Return response
     | Raise e => Raise e
     end,
     World (set_id 3 (set_logged_in true (set_session_id sid (self w))))
           (wire w ++ sent)).
Proof.
  intros Hchallenged Hanswered Hget Hfalse Htrue.
  rewrite (login_hash_phase _ _ _ _ Hchallenged). cbv zeta. cbn [wire self].
  rewrite (hash_answered_classify _ _ _ _ _ _ Hanswered Hget), Hfalse.
  rewrite Hget, Htrue.
  unfold current_time. rewrite bind_assoc, bind_request. cbn [self wire].
  cbv zeta. rewrite <- app_assoc. cbn [app].
  change (request_post _ "global.getCurrentTime" JNull JNull None None)
    with (time_post (self w) sid).
  destruct (classify true _) as [t|e]; [|done].
  rewrite bind_lift. cbn [mbind outcome_bind]. fold (params_time t).
  by destruct (params_time t).
Qed.

(** * The statements of the specification *)

(** C1 (as amended). Over any sequence of calls of the public methods in
    which no [extra] brings an [id] of its own, the ids of the envelopes
    posted follow one another: each is one more than the one before it, or
    it is 1 on the challenge post of a login; the counter ends at the last
    id sent.  And every [login] starts by posting the challenge, whose id
    is 1. *)
Theorem ids_follow_the_counter (ks : list call) (w : world) :
  Forall keeps_id ks →
  (∃ sent, wire (run_calls ks w) = wire w ++ sent
           ∧ follows (challenge_post (self w)) (_id (self w)) sent
                     (_id (self (run_calls ks w))))
  ∧ (∃ rest, wire (snd (login w)) = wire w ++ challenge_post (self w) :: rest
             ∧ post_data (challenge_post (self w)) !! "id" = Some (JInt 1)).
Proof.
  intros Hks. split.
  - by destruct (advances_run_calls ks w Hks) as (_ & _ & Hsent).
  - destruct (login_wire w) as (rest & Hrest & _).
    exists rest. split; [done|]. apply challenge_post_id.
Qed.




(** C8 (as amended). [extra] is merged after [method], [id], [params] and
    [object] and before [session]: for every key of [extra] the post
    carries the value of [extra], except that under [session] it carries
    the token of the client when the client holds one. *)
Theorem extra_overrides_all_but_session method params object_id
    (extra : gmap string json) url verify_result (w : world)
    (k : string) (v : json) :
  extra !! k = Some v →
  ∃ p, wire (snd (request method params object_id (Some extra) url
                    verify_result w)) = wire w ++ [p]
       ∧ post_data p !! k
         = Some (if bool_decide (k = "session")
                    && truthy (_session_id (self w))
                 then _session_id (self w) else v).
Proof.
  intros Hk. rewrite request_eq. cbn [snd wire].
  eexists. split; [done|].
  unfold request_post. cbn [post_data]. rewrite envelope_lookup.
  cbn [mbind option_bind]. rewrite Hk.
  by destruct (bool_decide _ && _).
Qed.

(** C9 (as amended). When [extra] brings no [object] of its own, the post
    has an [object] exactly when [object_id] is truthy, and then it is
    [object_id]; for a falsy [object_id], such as [0] or [None], it has
    none. *)
Theorem object_field_iff_truthy method params object_id extra url
    verify_result (w : world) :
  (∀ e, extra = Some e → e !! "object" = None) →
  ∃ p, wire (snd (request method params object_id extra url
                    verify_result w)) = wire w ++ [p]
       ∧ (is_Some (post_data p !! "object") ↔ truthy object_id = true)
       ∧ (truthy object_id = true → post_data p !! "object" = Some object_id)
       ∧ (truthy object_id = false → post_data p !! "object" = None)
       ∧ truthy (JInt 0) = false ∧ truthy JNull = false.
Proof.
  intros Hextra. rewrite request_eq. cbn [snd wire].
  eexists. split; [done|].
  unfold request_post. cbn [post_data]. rewrite envelope_lookup.
  assert (extra ≫= (.!! "object") = None) as ->.
  { destruct extra as [e|]; [|done]. by apply Hextra. }
  simpl. destruct (truthy object_id).
  - repeat split; try done; try by eexists.
  - destruct (is_None params); simpl; repeat split; try done;
      try by intros [? ?].
Qed.

(** C5 (as amended). Both coaxial methods call [login] first, whatever
    token the client holds: the posts are those of [login], namely the
    challenge and then nothing but the hash phase and the time query, and,
    if [login] did not raise, the status or control request right after
    them. *)
Theorem coaxial_methods_login_first channel type io trigger_mode (w : world) :
  let w1 := snd (login w) in
  (∃ rest, wire w1 = wire w ++ challenge_post (self w) :: rest
           ∧ Forall login_traffic rest)
  ∧ wire (snd (get_coaxial_control_io_status channel w))
    = wire w1 ++
      match fst (login w) with
      | Return _ =>
          [request_post (self w1) "CoaxialControlIO.getStatus"
             (status_params channel) JNull None None]
      | Raise _ => []
      end
  ∧ ∃ rest,
      wire (snd (set_coaxial_control_io_status channel type io trigger_mode w))
      = wire w1 ++
        match fst (login w) with
        | Return _ =>
            request_post (self w1) "CoaxialControlIO.control"
              (control_params channel type io trigger_mode) JNull None None
            :: rest
        | Raise _ => []
        end.
Proof.
  cbv zeta. split; [apply login_wire|]. split.
  - unfold get_coaxial_control_io_status.
    unfold mbind at 1, M_bind at 1.
    destruct (login w) as [[r|e] w1]; cbn [fst snd]; [|by rewrite app_nil_r].
    rewrite bind_request. cbv zeta.
    by destruct (classify true _) as [response|e].
  - unfold set_coaxial_control_io_status.
    unfold mbind at 1, M_bind at 1.
    destruct (login w) as [[r|e] w1]; cbn [fst snd];
      [|exists []; by rewrite app_nil_r].
    rewrite bind_request. cbv zeta.
    destruct (classify true _) as [response|e]; [|by exists []].
    edestruct (wire_grows (get_coaxial_control_io_status channel))
      as [sent ->]; [apply orderly_get_coaxial_control_io_status|].
    exists sent. cbn [wire]. by rewrite <- app_assoc.
Qed.


(** C2. Once the challenge is answered with [realm] and [random], the hash
    phase of [login] posts, as [password], the digest
    [passHash = upperHex(MD5("{username}:{random}:{pwdHash}"))] with
    [pwdHash = upperHex(MD5("{username}:{realm}:{password}"))]; both are
    functions of the four values, and on the known vector they are the
    digests that [hashlib] gives. *)
Theorem login_digest (w : world) (sid realm random : json) :
  challenged w sid realm random →
  let c := self w in
  let pwd_hash := spec_pwd_hash (_username c) (format realm) (_password c) in
  let pass_hash := spec_pass_hash (_username c) (format random) pwd_hash in
  (∃ rest, wire (snd (login w))
           = wire w ++ challenge_post c :: hash_post c sid realm random :: rest)
  ∧ post_data (hash_post c sid realm random) !! "params"
    = Some (hash_params c pass_hash)
  ∧ getitem (hash_params c pass_hash) "password" = Return (JStr pass_hash)
  ∧ spec_pwd_hash "admin" "ABCDEF" "secret"
    = "B91BD3A21B6D6D2D82D997D3A6552727"
  ∧ spec_pass_hash "admin" "123456" "B91BD3A21B6D6D2D82D997D3A6552727"
    = "8DD7FD6A38C23F46B1F10C06D84AAF23".
Proof.
  intros Hchallenged. cbv zeta. split; [|split; [|split; [|split]]].
  - rewrite (login_hash_phase _ _ _ _ Hchallenged). cbv zeta.
    destruct (classify true _) as [response|e]; [|by exists []].
    destruct (py_get response "result") as [result|e]; [|by exists []].
    destruct (eq_True result); [|by exists []].
    edestruct (wire_grows (current_time;; mret response)) as [sent ->];
      [orderly|].
    exists sent. cbn [wire]. by rewrite <- app_assoc.
  - unfold hash_post, request_post. cbn [post_data].
    by rewrite envelope_lookup.
  - done.
  - by vm_compute.
  - by vm_compute.
Qed.


(** C10. After an answered challenge, when the hash phase is answered with
    a dict whose [result] is [True], [login] makes a third post,
    [global.getCurrentTime], so that the ids posted are 1, 2 and 3, and
    sets [logged_in]; it returns the response of the hash phase if the time
    is found, and it raises, with [logged_in] set all the same, if the
    answer to the time query has no [params.time]. *)
Theorem login_asks_for_the_time (w : world) (sid realm random : json)
    (resp : gmap string json) :
  challenged w sid realm random →
  hash_answered w sid realm random (JDict resp) →
  resp !! "result" = Some (JBool true) →
  let sent := [challenge_post (self w);
               hash_post (self w) sid realm random;
               time_post (self w) sid] in
  wire (snd (login w)) = wire w ++ sent
  ∧ (λ p, post_data p !! "id") <$> sent
    = [Some (JInt 1); Some (JInt 2); Some (JInt 3)]
  ∧ post_data (time_post (self w) sid) !! "method"
    = Some (JStr "global.getCurrentTime")
  ∧ logged_in (self (snd (login w))) = true
  ∧ (∀ t, classify true (session (wire w ++ sent)) ≫= params_time = Return t →
          fst (login w) = Return (JDict resp))
  ∧ (∀ status text answer e,
       session (wire w ++ sent) = Response status text →
       json_loads text = Some answer →
       params_time answer = Raise e →
       ∃ e', fst (login w) = Raise e').
Proof.
  intros Hchallenged Hanswered Hresult. cbv zeta.
  rewrite (login_granted w sid realm random (JDict resp) (JBool true));
    [|done|done|by cbn [py_get]; rewrite Hresult|done|done].
  cbv zeta. cbn [fst snd wire self].
  split; [done|]. split.
  { cbn [fmap list_fmap]. unfold challenge_post, hash_post, time_post.
    unfold request_post. cbn [post_data].
    by rewrite !envelope_id. }
  split; [apply request_post_method|]. split; [done|]. split.
  - by intros t ->.
  - intros status text answer e Hsession Hloads Htime.
    rewrite (classify_response _ _ _ _ Hsession), Hloads.
    destruct (py_get answer "result") as [r|e1]; [|by eexists].
    destruct (is_False r); [by eexists|].
    cbn [mbind outcome_bind]. rewrite Htime. by eexists.
Qed.

(** * Further properties of the code *)

(** ** [request] *)

(** X1. Whatever the session answers and whatever [request] returns or
    raises, the call makes exactly one post and adds one to the counter;
    the token, [logged_in] and the configuration are as before. *)
Theorem request_frame method params object_id extra url verify_result
    (w : world) :
  snd (request method params object_id extra url verify_result w)
  = World (Client (_username (self w)) (_password (self w))
                  (_rtsp_port (self w)) (_session_id (self w))
                  (_id (self w) + 1) (_base (self w)) (logged_in (self w)))
          (wire w ++ [request_post (self w) method params object_id extra url]).
Proof. by rewrite request_eq. Qed.

(** X2. An exception of the HTTP session comes out of [request] as it is,
    with or without verification. *)
Theorem request_transport_failure method params object_id extra url
    verify_result (w : world) (e : exn) :
  session (wire w ++ [request_post (self w) method params object_id extra url])
  = Failure e →
  fst (request method params object_id extra url verify_result w) = Raise e.
Proof. intros Hsession. rewrite request_eq. cbn. by rewrite Hsession. Qed.

(** X3. Verification rejects the bool [False] only: a decoded dict whose
    [result] is absent, [None], [0], [True] or anything else is returned,
    with or without verification. *)
Theorem request_returns_unless_false method params object_id extra url
    verify_result (w : world) (status : Z) (text : string)
    (resp : gmap string json) :
  session (wire w ++ [request_post (self w) method params object_id extra url])
  = Response status text →
  json_loads text = Some (JDict resp) →
  resp !! "result" ≠ Some (JBool false) →
  fst (request method params object_id extra url verify_result w)
  = Return (JDict resp).
Proof.
  intros Hsession Hloads Hresult. rewrite request_eq. cbn [fst].
  rewrite (classify_response _ _ _ _ Hsession), Hloads.
  destruct verify_result; [|done]. cbn [py_get].
  by destruct (resp !! "result") as [[|[]| | | | |]|].
Qed.

(** X4. A body that decodes to something that is no dict makes a verifying
    request raise [AttributeError], and is returned as it is by a request
    that does not verify. *)
Theorem request_non_dict_response method params object_id extra url
    (w : world) (status : Z) (text : string) (resp : json) :
  session (wire w ++ [request_post (self w) method params object_id extra url])
  = Response status text →
  json_loads text = Some resp →
  (∀ d, resp ≠ JDict d) →
  fst (request method params object_id extra url true w) = Raise AttributeError
  ∧ fst (request method params object_id extra url false w) = Return resp.
Proof.
  intros Hsession Hloads Hresp. rewrite !request_eq. cbn [fst].
  rewrite !(classify_response _ _ _ _ Hsession), Hloads.
  split; [|done]. destruct resp as [ | | | | | |d]; try done.
  by destruct (Hresp d).
Qed.

(** X5. [params] is in the envelope exactly when it is not [None]: a falsy
    value such as [0] or an empty dict is sent (unlike [object_id]), when
    [extra] brings no [params] of its own. *)
Theorem params_field_iff_not_none c method params object_id extra :
  (∀ e, extra = Some e → e !! "params" = None) →
  (params = JNull → envelope c method params object_id extra !! "params" = None)
  ∧ (params ≠ JNull →
     envelope c method params object_id extra !! "params" = Some params)
  ∧ truthy (JInt 0) = false ∧ truthy (JDict ∅) = false.
Proof.
  intros Hextra. rewrite envelope_lookup.
  assert (extra ≫= (.!! "params") = None) as ->.
  { destruct extra as [e|]; [|done]. by apply Hextra. }
  simpl. split; [by intros ->|]. split; [|done].
  by destruct params.
Qed.

(** X6. The envelope carries the token of the client exactly when the token
    is truthy: a client without a token, or with an empty one, sends no
    [session], when [extra] brings none. *)
Theorem session_field_iff_token c method params object_id extra :
  (∀ e, extra = Some e → e !! "session" = None) →
  envelope c method params object_id extra !! "session"
  = if truthy (_session_id c) then Some (_session_id c) else None.
Proof.
  intros Hextra. rewrite envelope_lookup.
  assert (extra ≫= (.!! "session") = None) as ->.
  { destruct extra as [e|]; [|done]. by apply Hextra. }
  simpl. destruct (truthy (_session_id c)); [done|].
  by destruct (truthy object_id), (is_None params).
Qed.

(** X7. An envelope has no key other than [method], [id], [params],
    [object], [session] and the keys of [extra]; and it always has a
    [method] and an [id]. *)
Theorem envelope_has_no_other_key c method params object_id extra (k : string) :
  k ∉ envelope_keys →
  (∀ e, extra = Some e → e !! k = None) →
  envelope c method params object_id extra !! k = None
  ∧ is_Some (envelope c method params object_id extra !! "method")
  ∧ is_Some (envelope c method params object_id extra !! "id").
Proof.
  intros Hk Hextra. rewrite !envelope_lookup. split; [|split].
  - assert (extra ≫= (.!! k) = None) as ->.
    { destruct extra as [e|]; [|done]. by apply Hextra. }
    unfold envelope_keys in Hk.
    rewrite !bool_decide_eq_false_2; [done|..];
      intros ->; apply Hk; repeat constructor.
  - simpl. destruct (extra ≫= _); [by eexists|].
    destruct (is_None params); by eexists.
  - simpl. destruct (extra ≫= _); [by eexists|].
    destruct (is_None params); by eexists.
Qed.

(** ** What no method changes *)

Section Respects.
Context (R : relation world) `{!PreOrder R}.

Lemma respects_ret {A} (a : A) : respects R (mret a).
Proof. intros w. reflexivity. Qed.

Lemma respects_raise {A} e : respects R (raise (A:=A) e).
Proof. intros w. reflexivity. Qed.

Lemma respects_lift {A} (o : outcome A) : respects R (lift o).
Proof. intros w. reflexivity. Qed.

Lemma respects_get_self : respects R get_self.
Proof. intros w. reflexivity. Qed.

Lemma respects_bind {A B} (m : M A) (f : A → M B) :
  respects R m → (∀ a, respects R (f a)) → respects R (m ≫= f).
Proof.
  intros Hm Hf w. specialize (Hm w). unfold mbind, M_bind.
  destruct (m w) as [[a|e] w']; simpl in *; [|done].
  etransitivity; [done|]. apply Hf.
Qed.

Lemma respects_try_except {A} (body : M A) handler :
  respects R body → (∀ e, respects R (handler e)) →
  respects R (try_except body handler).
Proof.
  intros Hb Hh w. unfold try_except. specialize (Hb w).
  destruct (body w) as [[a|e] w']; simpl in *; [done|].
  etransitivity; [done|]. apply Hh.
Qed.

End Respects.

Create HintDb respects.

(** One step of the argument by the structure of a method; the requests,
    the assignments and the methods already done are in the hint
    database. *)
Ltac respects_step :=
  lazymatch goal with
  | |- respects _ (mbind _ _) => apply respects_bind; [tc_solve|..]
  | |- respects _ (if ?b then _ else _) => destruct b
  | |- respects _ (lift _) => apply respects_lift; tc_solve
  | |- respects _ (mret _) => apply respects_ret; tc_solve
  | |- respects _ (raise _) => apply respects_raise; tc_solve
  | |- respects _ get_self => apply respects_get_self; tc_solve
  | |- respects _ (try_except _ _) =>
      apply respects_try_except; [tc_solve|..]
  | |- respects _ _ => solve [auto with respects nocore]
  | |- _ => intro
  end.

Ltac respects := repeat respects_step.

#[local] Instance stable_preorder : PreOrder stable.
Proof.
  split.
  - by intros w.
  - intros w1 w2 w3 (Hu1 & Hp1 & Hr1 & Hb1 & Hl1) (Hu2 & Hp2 & Hr2 & Hb2 & Hl2).
    repeat split; try congruence. auto.
Qed.

Lemma stable_request method params object_id extra url verify_result :
  respects stable (request method params object_id extra url verify_result).
Proof. intros w. by rewrite request_frame. Qed.

Lemma stable_set_session_id v : respects stable (modify_self (set_session_id v)).
Proof. by intros w. Qed.

Lemma stable_set_id n : respects stable (modify_self (set_id n)).
Proof. by intros w. Qed.

Lemma stable_set_logged_in : respects stable (modify_self (set_logged_in true)).
Proof. by intros w. Qed.

#[local] Hint Resolve stable_request stable_set_session_id stable_set_id
  stable_set_logged_in : respects.

Lemma stable_current_time : respects stable current_time.
Proof. unfold current_time. respects. Qed.

#[local] Hint Resolve stable_current_time : respects.

Lemma stable_login : respects stable login.
Proof. unfold login. respects. Qed.

Lemma stable_get_config params : respects stable (get_config params).
Proof. unfold get_config. respects. Qed.

#[local] Hint Resolve stable_login stable_get_config : respects.

Lemma stable_get_coaxial_control_io_status channel :
  respects stable (get_coaxial_control_io_status channel).
Proof. unfold get_coaxial_control_io_status. respects. Qed.

#[local] Hint Resolve stable_get_coaxial_control_io_status : respects.

Lemma stable_logout : respects stable logout.
Proof. unfold logout. respects. Qed.

Lemma stable_get_serial_number : respects stable get_serial_number.
Proof. unfold get_serial_number. respects. Qed.

Lemma stable_get_device_name : respects stable get_device_name.
Proof. unfold get_device_name. respects. Qed.

Lemma stable_set_coaxial_control_io_status channel type io trigger_mode :
  respects stable (set_coaxial_control_io_status channel type io trigger_mode).
Proof. unfold set_coaxial_control_io_status. respects. Qed.

Lemma stable_run_call w k : stable w (run_call w k).
Proof.
  destruct k; simpl.
  - apply stable_request.
  - apply stable_login.
  - apply stable_logout.
  - apply stable_current_time.
  - apply stable_get_serial_number.
  - apply stable_get_config.
  - apply stable_get_device_name.
  - apply stable_get_coaxial_control_io_status.
  - apply stable_set_coaxial_control_io_status.
Qed.

(** X8. Over any sequence of calls, the user name, the password, the RTSP
    port and the base URL of the client stay what [__init__] made them,
    and [logged_in], once [True], is never set back to [False]: not by a
    failed login, nor by [logout]. *)
Theorem configuration_is_kept (ks : list call) (w : world) :
  let w' := run_calls ks w in
  _username (self w') = _username (self w)
  ∧ _password (self w') = _password (self w)
  ∧ _rtsp_port (self w') = _rtsp_port (self w)
  ∧ _base (self w') = _base (self w)
  ∧ (logged_in (self w) = true → logged_in (self w') = true).
Proof.
  cbv zeta. unfold run_calls. revert w.
  induction ks as [|k ks IH]; intros w; [done|]. simpl.
  change (stable w (fold_left run_call ks (run_call w k))).
  etransitivity; [apply stable_run_call|]. apply IH.
Qed.

(** ** The posts of a login *)

(** X9. Whatever the device answers, a login makes one, two or three posts
    and no other: the challenge, then the hash phase, then the time query,
    each only after the one before it. *)
Theorem login_makes_at_most_three_posts (w : world) :
  ∃ sid realm random sent,
    wire (snd (login w)) = wire w ++ sent
    ∧ sent ≠ []
    ∧ sent `prefix_of` [challenge_post (self w);
                        hash_post (self w) sid realm random;
                        time_post (self w) sid].
Proof.
  unfold login.
  rewrite !bind_modify_self, bind_get_self. cbn [self wire]. cbv zeta.
  rewrite bind_request. cbn [self wire]. cbv zeta.
  change (request_post (set_id 0 (set_session_id JNull (self w))) "global.login"
            (challenge_params _) JNull None _) with (challenge_post (self w)).
  assert (Hone : ∀ sid realm random,
    [challenge_post (self w)] ≠ []
    ∧ [challenge_post (self w)]
        `prefix_of` [challenge_post (self w);
                     hash_post (self w) sid realm random;
                     time_post (self w) sid])
    by (intros; split; [done|by eexists]).
  destruct (classify false _) as [r|e];
    [|by exists JNull, JNull, JNull, [challenge_post (self w)]].
  rewrite bind_lift.
  destruct (getitem r "session") as [sid|e];
    [|by exists JNull, JNull, JNull, [challenge_post (self w)]].
  rewrite bind_modify_self, bind_lift.
  destruct (_ ≫= _) as [realm|e];
    [|by exists JNull, JNull, JNull, [challenge_post (self w)]].
  rewrite bind_lift.
  destruct (_ ≫= _) as [random|e];
    [|by exists JNull, JNull, JNull, [challenge_post (self w)]].
  rewrite bind_request. cbn [self wire]. cbv zeta.
  change (request_post _ "global.login" (hash_params _ _) JNull None _)
    with (hash_post (self w) sid realm random).
  rewrite <- app_assoc. cbn [app].
  exists sid, realm, random.
  assert (Htwo :
    [challenge_post (self w); hash_post (self w) sid realm random] ≠ []
    ∧ [challenge_post (self w); hash_post (self w) sid realm random]
        `prefix_of` [challenge_post (self w);
                     hash_post (self w) sid realm random;
                     time_post (self w) sid])
    by (split; [done|by eexists]).
  destruct (classify true _) as [response|e]; [|by eexists].
  rewrite bind_lift.
  destruct (py_get response "result") as [result|e]; [|by eexists].
  destruct (eq_True result); [|by eexists].
  rewrite bind_modify_self. cbn [self wire].
  unfold current_time. rewrite bind_assoc, bind_request. cbn [self wire].
  cbv zeta. rewrite <- app_assoc. cbn [app].
  change (request_post _ "global.getCurrentTime" JNull JNull None None)
    with (time_post (self w) sid).
  eexists. split; [|split; [|done]]; [|done].
  by destruct (classify true _) as [t|e];
    [rewrite bind_lift; destruct (_ ≫= _)|].
Qed.

Lemma login_posts_device_url c sid realm random p :
  p ∈ [challenge_post c; hash_post c sid realm random; time_post c sid] →
  device_url (_base c) p.
Proof.
  assert (Hlogin : target c (Some (_base c +:+ "/RPC2_Login"))
                   = _base c +:+ "/RPC2_Login")
    by (unfold target; by destruct (_base c)).
  intros Hp. apply elem_of_cons in Hp as [->|Hp]; [by right|].
  apply elem_of_cons in Hp as [->|Hp]; [by right|].
  apply elem_of_cons in Hp as [->|Hp]; [by left|].
  by apply elem_of_nil in Hp.
Qed.

#[local] Instance homebound_preorder : PreOrder homebound.
Proof.
  split.
  - intros w. split; [done|]. exists []. by rewrite app_nil_r.
  - intros w1 w2 w3 (Hb1 & s1 & Hw1 & Hs1) (Hb2 & s2 & Hw2 & Hs2).
    split; [congruence|]. exists (s1 ++ s2). split.
    + by rewrite Hw2, Hw1, app_assoc.
    + apply Forall_app. split; [done|]. by rewrite <- Hb1.
Qed.

Lemma homebound_request method params object_id extra verify_result :
  respects homebound (request method params object_id extra None verify_result).
Proof.
  intros w. rewrite request_frame. split; [done|].
  eexists [_]. split; [done|]. constructor; [by left|done].
Qed.

Lemma homebound_login : respects homebound login.
Proof.
  intros w. split; [apply stable_login|].
  destruct (login_makes_at_most_three_posts w)
    as (sid & realm & random & sent & Hwire & _ & tail & Htail).
  exists sent. split; [done|]. apply Forall_forall. intros p Hp.
  apply (login_posts_device_url _ sid realm random). rewrite Htail.
  apply elem_of_app. by left.
Qed.

#[local] Hint Resolve homebound_request homebound_login : respects.

Lemma homebound_get_coaxial_control_io_status channel :
  respects homebound (get_coaxial_control_io_status channel).
Proof. unfold get_coaxial_control_io_status. respects. Qed.

#[local] Hint Resolve homebound_get_coaxial_control_io_status : respects.

Lemma homebound_run_call w k : no_url k → homebound w (run_call w k).
Proof.
  destruct k as [method params object_id extra [[|a u]|] verify_result
                | | | | | | | |]; simpl; try done; intros _.
  - rewrite request_frame. split; [done|].
    eexists [_]. split; [done|]. constructor; [by left|done].
  - apply homebound_request.
  - apply homebound_login.
  - revert w. change (respects homebound logout). unfold logout. respects.
  - revert w. change (respects homebound current_time).
    unfold current_time. respects.
  - revert w. change (respects homebound get_serial_number).
    unfold get_serial_number. respects.
  - revert w. change (respects homebound (get_config params)).
    unfold get_config. respects.
  - revert w. change (respects homebound get_device_name).
    unfold get_device_name, get_config. respects.
  - apply homebound_get_coaxial_control_io_status.
  - revert w.
    change (respects homebound
              (set_coaxial_control_io_status channel type io trigger_mode)).
    unfold set_coaxial_control_io_status. respects.
Qed.

(** X10. The client posts to its own device only: over any sequence of
    calls that name no address themselves, every post goes to
    [{base}/RPC2] or to [{base}/RPC2_Login]. *)
Theorem posts_go_to_the_device (ks : list call) (w : world) :
  Forall no_url ks →
  ∃ sent, wire (run_calls ks w) = wire w ++ sent
          ∧ Forall (device_url (_base (self w))) sent.
Proof.
  intros Hks. unfold run_calls.
  enough (homebound w (fold_left run_call ks w)) as [_ H] by done.
  revert w. induction Hks as [|k ks Hk _ IH]; intros w; simpl.
  - reflexivity.
  - etransitivity; [by apply homebound_run_call|]. apply IH.
Qed.


(** X12. When the answer to the challenge is a dict without [session],
    [login] raises [KeyError] after that one post, holding no token. *)
Theorem login_without_session (w : world) (status : Z) (text : string)
    (r : gmap string json) :
  session (wire w ++ [challenge_post (self w)]) = Response status text →
  json_loads text = Some (JDict r) →
  r !! "session" = None →
  login w
  = (Raise (KeyError "session"),
     World (set_id 1 (set_session_id JNull (self w)))
           (wire w ++ [challenge_post (self w)])).
Proof.
  intros Hsession Hloads Hr. unfold login.
  rewrite !bind_modify_self, bind_get_self. cbn [self wire]. cbv zeta.
  rewrite bind_request. cbn [self wire]. cbv zeta.
  change (request_post (set_id 0 (set_session_id JNull (self w))) "global.login"
            (challenge_params _) JNull None _) with (challenge_post (self w)).
  rewrite (classify_response _ _ _ _ Hsession), Hloads.
  rewrite bind_lift. cbn [getitem]. by rewrite Hr.
Qed.

(** X13. When the answer to the challenge has a [session] but no realm,
    [login] raises after that one post, and the client keeps the token of
    the answer although nothing was authenticated. *)
Theorem login_without_realm (w : world) (status : Z) (text : string)
    (r sid : json) (e : exn) :
  session (wire w ++ [challenge_post (self w)]) = Response status text →
  json_loads text = Some r →
  getitem r "session" = Return sid →
  (p ← getitem r "params"; getitem p "realm") = Raise e →
  login w
  = (Raise e,
     World (set_id 1 (set_session_id sid (self w)))
           (wire w ++ [challenge_post (self w)])).
Proof.
  intros Hsession Hloads Hsid Hrealm. unfold login.
  rewrite !bind_modify_self, bind_get_self. cbn [self wire]. cbv zeta.
  rewrite bind_request. cbn [self wire]. cbv zeta.
  change (request_post (set_id 0 (set_session_id JNull (self w))) "global.login"
            (challenge_params _) JNull None _) with (challenge_post (self w)).
  rewrite (classify_response _ _ _ _ Hsession), Hloads.
  by rewrite bind_lift, Hsid, bind_modify_self, bind_lift, Hrealm.
Qed.

(** X14. A login that the hash phase does not grant, whether it raises on
    [result] [False] or returns [False], leaves the client with the token
    of the challenge and the counter at 2. *)
Theorem login_not_granted_keeps_token (w : world)
    (sid realm random response result : json) :
  challenged w sid realm random →
  hash_answered w sid realm random response →
  py_get response "result" = Return result →
  eq_True result = false →
  snd (login w)
  = World (set_id 2 (set_session_id sid (self w)))
          (wire w ++ [challenge_post (self w);
                      hash_post (self w) sid realm random]).
Proof.
  intros Hchallenged Hanswered Hget Htrue.
  rewrite (login_hash_phase _ _ _ _ Hchallenged). cbv zeta. cbn [wire self].
  rewrite (hash_answered_classify _ _ _ _ _ _ Hanswered Hget).
  destruct (is_False result); [done|]. by rewrite Hget, Htrue.
Qed.


(** X16. After a granted login the client holds the token of the challenge
    with the counter at 3, so the next request, of any method, carries that
    token and the id 4. *)
Theorem granted_login_installs_token (w : world)
    (sid realm random response result : json) method params object_id url :
  challenged w sid realm random →
  hash_answered w sid realm random response →
  py_get response "result" = Return result →
  is_False result = false → eq_True result = true →
  truthy sid = true →
  let w' := snd (login w) in
  _session_id (self w') = sid
  ∧ _id (self w') = 3%Z
  ∧ logged_in (self w') = true
  ∧ post_data (request_post (self w') method params object_id None url)
      !! "session" = Some sid
  ∧ post_data (request_post (self w') method params object_id None url)
      !! "id" = Some (JInt 4).
Proof.
  intros Hchallenged Hanswered Hget Hfalse Htrue Hsid. cbv zeta.
  rewrite (login_granted _ _ _ _ _ _ Hchallenged Hanswered Hget Hfalse Htrue).
  cbv zeta. cbn [snd self].
  split; [done|]. split; [done|]. split; [done|].
  unfold request_post. cbn [post_data]. split.
  - rewrite session_field_iff_token by done.
    cbn [_session_id set_id set_logged_in set_session_id]. by rewrite Hsid.
  - by rewrite envelope_id.
Qed.

(** X17. [login] compares [result] with [==]: a hash phase answered with the
    integer [1] as [result] logs the client in as [True] does. *)
Theorem login_accepts_result_one (w : world) (sid realm random : json)
    (resp : gmap string json) :
  challenged w sid realm random →
  hash_answered w sid realm random (JDict resp) →
  resp !! "result" = Some (JInt 1) →
  logged_in (self (snd (login w))) = true
  ∧ wire (snd (login w))
    = wire w ++ [challenge_post (self w);
                 hash_post (self w) sid realm random;
                 time_post (self w) sid].
Proof.
  intros Hchallenged Hanswered Hresult.
  rewrite (login_granted w sid realm random (JDict resp) (JInt 1));
    [done|done|done|by cbn [py_get]; rewrite Hresult|done|done].
Qed.

(** ** The digest *)

Lemma hex_digit_upper (n : Z) :
  (0 ≤ n < 16)%Z → is_upper_hex (upper_char (MD5.hex_digit n)) = true.
Proof.
  intros Hn.
  assert (n = 0 ∨ n = 1 ∨ n = 2 ∨ n = 3 ∨ n = 4 ∨ n = 5 ∨ n = 6 ∨ n = 7
          ∨ n = 8 ∨ n = 9 ∨ n = 10 ∨ n = 11 ∨ n = 12 ∨ n = 13 ∨ n = 14
          ∨ n = 15)%Z as Hcases by lia.
  repeat (destruct Hcases as [->|Hcases]; [done|]). by subst.
Qed.

Lemma le_bytes_range (n : nat) (x : Z) :
  Forall (λ b, 0 ≤ b < 256)%Z (MD5.le_bytes n x).
Proof.
  revert x. induction n as [|n IH]; intros x; simpl; constructor; [|done].
  by apply Z.mod_pos_bound.
Qed.

Lemma length_le_bytes (n : nat) (x : Z) : length (MD5.le_bytes n x) = n.
Proof. revert x. induction n as [|n IH]; intros x; simpl; by f_equal. Qed.

Lemma upper_hex_format (bs : list Z) :
  Forall (λ b, 0 ≤ b < 256)%Z bs →
  String.length (upper (MD5.hex bs)) = 2 * length bs
  ∧ all_chars is_upper_hex (upper (MD5.hex bs)) = true.
Proof.
  induction 1 as [|b bs Hb _ [IHlen IHchars]]; [done|]. simpl. split.
  - rewrite IHlen. lia.
  - rewrite IHchars, !hex_digit_upper; [done|..].
    + by apply Z.mod_pos_bound.
    + split; [apply Z.div_pos; lia|apply Z.div_lt_upper_bound; lia].
Qed.

Lemma upper_md5_format (data : list Z) :
  String.length (upper (md5_hexdigest data)) = 32
  ∧ all_chars is_upper_hex (upper (md5_hexdigest data)) = true.
Proof.
  unfold md5_hexdigest, MD5.digest. cbv zeta.
  destruct (upper_hex_format
              (MD5.le_bytes 4 (MD5.sa (fold_left MD5.compress
                 (MD5.blocks (length (MD5.pad data) / 64) (MD5.pad data))
                 MD5.init)) ++
               MD5.le_bytes 4 (MD5.sb (fold_left MD5.compress
                 (MD5.blocks (length (MD5.pad data) / 64) (MD5.pad data))
                 MD5.init)) ++
               MD5.le_bytes 4 (MD5.sc (fold_left MD5.compress
                 (MD5.blocks (length (MD5.pad data) / 64) (MD5.pad data))
                 MD5.init)) ++
               MD5.le_bytes 4 (MD5.sd (fold_left MD5.compress
                 (MD5.blocks (length (MD5.pad data) / 64) (MD5.pad data))
                 MD5.init)))) as [Hlen Hchars].
  { repeat (apply Forall_app; split); apply le_bytes_range. }
  split; [|done]. rewrite Hlen, !length_app, !length_le_bytes. done.
Qed.

(** X18. Whatever the realm and the nonce of the challenge are, of any
    type and any length, the password sent in the hash phase is 32
    characters, each one of [0-9A-F]. *)
Theorem pass_hash_is_upper_hex (c : client) (realm random : json) :
  String.length (pass_hash c realm random) = 32
  ∧ all_chars is_upper_hex (pass_hash c realm random) = true.
Proof. unfold pass_hash. cbv zeta. apply upper_md5_format. Qed.

(** ** [CoaxialControlIOStatus] *)

Lemma eq_str_true v s : eq_str v s = true ↔ v = JStr s.
Proof.
  destruct v; simpl; try (split; [done|by intros [=]]).
  rewrite String.eqb_eq. split; [by intros ->|by intros [= ->]].
Qed.

(** X19. Decoding a status response keeps the response and sets [speaker]
    exactly when [params.status.Speaker] is the string [On], and
    [white_light] exactly when [params.status.WhiteLight] is: any other
    string, and any value that is no string, gives [False]. *)
Theorem status_decoding (resp p st sp wl : json) :
  getitem resp "params" = Return p →
  getitem p "status" = Return st →
  getitem st "Speaker" = Return sp →
  getitem st "WhiteLight" = Return wl →
  ∃ s, new_CoaxialControlIOStatus resp = Return s
       ∧ api_response s = resp
       ∧ (speaker s = true ↔ sp = JStr "On")
       ∧ (white_light s = true ↔ wl = JStr "On").
Proof.
  intros Hp Hst Hsp Hwl. unfold new_CoaxialControlIOStatus.
  destruct resp; try done. cbn [is_None].
  cbn [mbind outcome_bind]. rewrite Hp. cbn [mbind outcome_bind].
  rewrite Hst. cbn [mbind outcome_bind]. rewrite Hsp, Hwl.
  eexists. split; [done|]. cbn [api_response speaker white_light].
  by rewrite !eq_str_true.
Qed.

(** X20. A status response without [params] makes the decoding raise
    [KeyError], while no response at all ([None]) gives the defaults. *)
Theorem status_decoding_without_params (d : gmap string json) :
  d !! "params" = None →
  new_CoaxialControlIOStatus (JDict d) = Raise (KeyError "params")
  ∧ new_CoaxialControlIOStatus JNull = Return (Status false false JNull).
Proof.
  intros Hd. split; [|done]. unfold new_CoaxialControlIOStatus.
  cbn [is_None getitem mbind outcome_bind]. by rewrite Hd.
Qed.

(** ** The typed operations *)

Lemma bind_run {A B} (m : M A) (k : A → M B) w :
  (m ≫= k) w
  = match m w with
    | (Return a, w') => k a w'
    | (Raise e, w') => (Raise e, w')
    end.
Proof. done. Qed.

Lemma is_False_result (d : gmap string json) :
  d !! "result" ≠ Some (JBool false) →
  is_False (default JNull (d !! "result")) = false.
Proof. by destruct (d !! "result") as [[|[]| | | | |]|]. Qed.

(** A method that starts with a request whose answer is a dict that is not
    refused. *)
Lemma bind_request_answered {B} method params object_id extra url
    (k : json → M B) w status text d :
  session (wire w ++ [request_post (self w) method params object_id extra url])
  = Response status text →
  json_loads text = Some (JDict d) →
  d !! "result" ≠ Some (JBool false) →
  (request method params object_id extra url true ≫= k) w
  = k (JDict d)
      (World (set_id (_id (self w) + 1) (self w))
             (wire w ++ [request_post (self w) method params object_id extra
                           url])).
Proof.
  intros Hsession Hloads Hresult. rewrite bind_request. cbv zeta. cbn [wire].
  rewrite (classify_response _ _ _ _ Hsession), Hloads. cbn [py_get].
  by rewrite is_False_result.
Qed.

(** X21. [get_serial_number] makes one post, without [params], and returns
    [params.sn] of a response that is not refused. *)
Theorem get_serial_number_result (w : world) (status : Z) (text : string)
    (d p : gmap string json) (sn : json) :
  session (wire w ++ [request_post (self w) "magicBox.getSerialNo" JNull JNull
                        None None]) = Response status text →
  json_loads text = Some (JDict d) →
  d !! "result" ≠ Some (JBool false) →
  d !! "params" = Some (JDict p) →
  p !! "sn" = Some sn →
  fst (get_serial_number w) = Return sn
  ∧ wire (snd (get_serial_number w))
    = wire w ++ [request_post (self w) "magicBox.getSerialNo" JNull JNull
                   None None]
  ∧ post_data (request_post (self w) "magicBox.getSerialNo" JNull JNull
                 None None) !! "params" = None.
Proof.
  intros Hsession Hloads Hresult Hd Hp. unfold get_serial_number.
  rewrite (bind_request_answered _ _ _ _ _ _ _ _ _ _ Hsession Hloads Hresult).
  unfold lift. cbn [fst snd wire getitem mbind outcome_bind].
  rewrite Hd. cbn [mbind outcome_bind getitem]. rewrite Hp.
  split; [done|]. split; [done|].
  by apply params_field_iff_not_none.
Qed.

(** X22. When the response has no [params.sn], [get_serial_number] raises
    the [KeyError] of the missing key after its one post: it does not ask
    again and does not log in. *)
Theorem get_serial_number_missing (w : world) (status : Z) (text : string)
    (d p : gmap string json) :
  session (wire w ++ [request_post (self w) "magicBox.getSerialNo" JNull JNull
                        None None]) = Response status text →
  json_loads text = Some (JDict d) →
  d !! "result" ≠ Some (JBool false) →
  d !! "params" = Some (JDict p) →
  p !! "sn" = None →
  fst (get_serial_number w) = Raise (KeyError "sn")
  ∧ wire (snd (get_serial_number w))
    = wire w ++ [request_post (self w) "magicBox.getSerialNo" JNull JNull
                   None None].
Proof.
  intros Hsession Hloads Hresult Hd Hp. unfold get_serial_number.
  rewrite (bind_request_answered _ _ _ _ _ _ _ _ _ _ Hsession Hloads Hresult).
  unfold lift. cbn [fst snd wire getitem mbind outcome_bind].
  rewrite Hd. cbn [mbind outcome_bind getitem]. by rewrite Hp.
Qed.

(** X23. [get_device_name] asks [configManager.getConfig] for the config
    named [General] and returns [params.table.MachineName] of the
    response. *)
Theorem get_device_name_result (w : world) (status : Z) (text : string)
    (d p t : gmap string json) (name : json) :
  let q := request_post (self w) "configManager.getConfig"
             (JDict {[ "name" := JStr "General" ]}) JNull None None in
  session (wire w ++ [q]) = Response status text →
  json_loads text = Some (JDict d) →
  d !! "result" ≠ Some (JBool false) →
  d !! "params" = Some (JDict p) →
  p !! "table" = Some (JDict t) →
  t !! "MachineName" = Some name →
  fst (get_device_name w) = Return name
  ∧ wire (snd (get_device_name w)) = wire w ++ [q]
  ∧ post_data q !! "params" = Some (JDict {[ "name" := JStr "General" ]}).
Proof.
  cbv zeta. intros Hsession Hloads Hresult Hd Hp Ht.
  unfold get_device_name, get_config. rewrite bind_assoc.
  rewrite (bind_request_answered _ _ _ _ _ _ _ _ _ _ Hsession Hloads Hresult).
  rewrite bind_lift. cbn [getitem]. rewrite Hd.
  unfold lift. cbn [fst snd wire getitem mbind outcome_bind].
  rewrite Hp. cbn [mbind outcome_bind getitem]. rewrite Ht.
  split; [done|]. split; [done|].
  by apply params_field_iff_not_none.
Qed.

(** X24. [get_coaxial_control_io_status] does not look at what [login]
    returned: when [login] returns, be it the response or [False], the
    status is asked for and the answer decoded. *)
Theorem get_coaxial_decodes_status (channel : Z) (w : world) (r : json)
    (status : Z) (text : string) (d : gmap string json) :
  fst (login w) = Return r →
  session (wire (snd (login w))
           ++ [request_post (self (snd (login w))) "CoaxialControlIO.getStatus"
                 (status_params channel) JNull None None])
  = Response status text →
  json_loads text = Some (JDict d) →
  d !! "result" ≠ Some (JBool false) →
  fst (get_coaxial_control_io_status channel w)
  = new_CoaxialControlIOStatus (JDict d).
Proof.
  intros Hlogin Hsession Hloads Hresult.
  unfold get_coaxial_control_io_status, mbind at 1, M_bind at 1.
  destruct (login w) as [[r'|e] w1]; [|done]. cbn [fst snd] in *.
  by rewrite (bind_request_answered _ _ _ _ _ _ _ _ _ _ Hsession Hloads
                Hresult).
Qed.

(** X25. When the control request of [set_coaxial_control_io_status] is
    refused, the method raises the error of that request and stops there:
    it neither logs in again nor asks for the status. *)
Theorem set_coaxial_stops_when_refused (channel type io trigger_mode : Z)
    (w : world) (r : json) (status : Z) (text : string)
    (d : gmap string json) :
  let q := request_post (self (snd (login w))) "CoaxialControlIO.control"
             (control_params channel type io trigger_mode) JNull None None in
  fst (login w) = Return r →
  session (wire (snd (login w)) ++ [q]) = Response status text →
  json_loads text = Some (JDict d) →
  d !! "result" = Some (JBool false) →
  fst (set_coaxial_control_io_status channel type io trigger_mode w)
  = Raise (ConnectionError ("API call failed: " +:+ format (JDict d)))
  ∧ wire (snd (set_coaxial_control_io_status channel type io trigger_mode w))
    = wire (snd (login w)) ++ [q].
Proof.
  cbv zeta. intros Hlogin Hsession Hloads Hresult.
  unfold set_coaxial_control_io_status. rewrite (bind_run login).
  destruct (login w) as [[r'|e] w1]; [|done]. cbn [fst snd] in *.
  rewrite bind_request. cbv zeta. cbn [wire].
  rewrite (classify_response _ _ _ _ Hsession), Hloads.
  cbn [py_get]. by rewrite Hresult.
Qed.

(** X26. [logout] clears nothing: whatever the answer, the client keeps its
    token and its [logged_in], and the only effects are the one post,
    without [params], and the counter. *)
Theorem logout_clears_nothing (w : world) :
  let q := request_post (self w) "global.logout" JNull JNull None None in
  snd (logout w)
  = World (Client (_username (self w)) (_password (self w))
                  (_rtsp_port (self w)) (_session_id (self w))
                  (_id (self w) + 1) (_base (self w)) (logged_in (self w)))
          (wire w ++ [q])
  ∧ post_data q !! "method" = Some (JStr "global.logout")
  ∧ post_data q !! "params" = None.
Proof.
  cbv zeta. split; [|split].
  - unfold logout, try_except. rewrite bind_request. cbv zeta.
    destruct (classify true _) as [response|e]; [|done].
    rewrite bind_lift.
    destruct (py_get response "result") as [result|e]; [|done].
    by destruct (is_True result).
  - apply request_post_method.
  - by apply params_field_iff_not_none.
Qed.

(** ** [__init__] *)

(** X27. A new client speaks https exactly when its port is 443; it holds
    no token, so its first request has the id 1 and no [session]. *)
Theorem new_client (username password address : string) (port rtsp_port : Z)
    method params object_id url :
  let c := __init__ username password address port rtsp_port in
  (startswith (_base c) "https://" = true ↔ port = 443%Z)
  ∧ (startswith (_base c) "http://" = true ↔ port ≠ 443%Z)
  ∧ logged_in c = false
  ∧ post_data (request_post c method params object_id None url) !! "id"
    = Some (JInt 1)
  ∧ post_data (request_post c method params object_id None url) !! "session"
    = None.
Proof.
  cbv zeta.
  assert (Hbase : ∃ rest,
    _base (__init__ username password address port rtsp_port)
    = (if (port =? 443)%Z then "https" else "http") +:+ "://" +:+ rest)
    by (by eexists).
  destruct Hbase as [rest ->].
  split; [|split; [|split; [done|split]]].
  - destruct (Z.eqb_spec port 443) as [->|Hport].
    + split; [done|]. intros _. by cbv.
    + split; [|done]. intros Hprefix. by cbv in Hprefix.
  - destruct (Z.eqb_spec port 443) as [->|Hport].
    + split; [|done]. intros Hprefix. by cbv in Hprefix.
    + split; [done|]. intros _. by cbv.
  - unfold request_post. cbn [post_data]. by rewrite envelope_id.
  - unfold request_post. cbn [post_data].
    by rewrite session_field_iff_token.
Qed.

End DahuaRpc2Client.

(** * The statements on the scripted device *)

Section Examples.
Import Fixture.

Local Abbreviation ok := (Response 200).

Example md5_empty : md5_hexdigest [] = "d41d8cd98f00b204e9800998ecf8427e".
Proof. by vm_compute. Qed.

Example md5_abc :
  md5_hexdigest (encode_utf8 "abc") = "900150983cd24fb0d6963f7d28e17f72".
Proof. by vm_compute. Qed.

Example md5_two_blocks :
  md5_hexdigest (encode_utf8
    "12345678901234567890123456789012345678901234567890123456789012345678901234567890")
  = "57edf4a22be3c955ac49da2e2107b67a".
Proof. by vm_compute. Qed.

Example base_url :
  _base camera = "http://192.168.1.108:80"
  ∧ _base (__init__ "admin" "secret" "cam.local" 443 554) = "https://cam.local:443".
Proof. by vm_compute. Qed.

Example status_decoded (response : json) :
  loads "status" = Some response →
  new_CoaxialControlIOStatus response = Return (Status true false response).
Proof. intros [= <-]. by vm_compute. Qed.

(** The ids of a login, a serial number query and a second login. *)
Example ids_of_two_logins :
  let device := scripted [ok "challenge"; ok "granted"; ok "time"; ok "status";
                          ok "challenge"; ok "unclear"] in
  (λ p, post_data p !! "id") <$>
    wire (run_calls loads repr device
            [call_login; call_get_serial_number; call_login] start)
  = [Some (JInt 1); Some (JInt 2); Some (JInt 3); Some (JInt 4);
     Some (JInt 1); Some (JInt 2)].
Proof. by vm_compute. Qed.


(** C1: a run without [id] in any [extra]. *)
Lemma ids_follow_the_counter_witness :
  let device := scripted [ok "challenge"; ok "granted"; ok "time";
                          ok "status"; ok "challenge"; ok "unclear"] in
  let ks := [call_login;
             call_request "magicBox.getSerialNo" JNull JNull
               (Some {[ "object" := JInt 3 ]}) None true;
             call_login] in
  (∃ sent, wire (run_calls loads repr device ks in_session)
           = wire in_session ++ sent
           ∧ follows (challenge_post (self in_session)) (_id (self in_session))
                     sent
                     (_id (self (run_calls loads repr device ks in_session))))
  ∧ (∃ rest, wire (snd (login loads repr device in_session))
             = wire in_session ++ challenge_post (self in_session) :: rest
             ∧ post_data (challenge_post (self in_session)) !! "id"
               = Some (JInt 1)).
Proof.
  cbv zeta. apply ids_follow_the_counter.
  repeat constructor.
Defined.

(** C1 as stated fails: an [extra] with an [id] replaces the counter in the
    envelope, so the ids posted are 1 and then 7. *)
Lemma ids_counterexample :
  let ks := [call_request "magicBox.getSerialNo" JNull JNull None None true;
             call_request "magicBox.getSerialNo" JNull JNull
               (Some {[ "id" := JInt 7 ]}) None true] in
  let w := run_calls loads repr (scripted [ok "granted"; ok "granted"]) ks
             start in
  (λ p, post_data p !! "id") <$> wire w = [Some (JInt 1); Some (JInt 7)]
  ∧ ¬ follows (challenge_post camera) 0 (wire w) (_id (self w)).
Proof.
  cbv zeta. split; [by vm_compute|].
  intros Hfollows. vm_compute in Hfollows.
  destruct Hfollows as (n & [= <-] & _ & m & [= <-] & [Hm|[Hm _]] & _);
    discriminate Hm.
Qed.




(** C8: [extra] replaces the [id]. *)
Lemma extra_overrides_all_but_session_witness :
  let extra : gmap string json :=
    {[ "id" := JInt 7; "session" := JStr "X" ]} in
  ∃ p, wire (snd (request loads repr (scripted [ok "granted"])
                    "magicBox.getSerialNo" JNull JNull (Some extra) None true
                    in_session)) = wire in_session ++ [p]
       ∧ post_data p !! "id" = Some (JInt 7).
Proof.
  cbv zeta.
  exact (extra_overrides_all_but_session loads repr _ _ _ _
           {[ "id" := JInt 7; "session" := JStr "X" ]} _ _ _
           "id" (JInt 7) eq_refl).
Defined.

(** C8 as stated fails: under [session] the post carries the token that the
    client holds, not the value of [extra]. *)
Lemma extra_session_counterexample :
  let extra : gmap string json :=
    {[ "id" := JInt 7; "session" := JStr "X" ]} in
  extra !! "session" = Some (JStr "X")
  ∧ (λ p, post_data p !! "session") <$>
      wire (snd (request loads repr (scripted [ok "granted"])
                   "magicBox.getSerialNo" JNull JNull (Some extra) None true
                   in_session))
    = [Some (JStr "S0")].
Proof. by vm_compute. Qed.

(** C9: an [object_id] of 0 with no [extra]. *)
Lemma object_field_iff_truthy_witness :
  ∃ p, wire (snd (request loads repr (scripted [ok "granted"])
                    "magicBox.getSerialNo" JNull (JInt 0) None None true
                    start)) = wire start ++ [p]
       ∧ (is_Some (post_data p !! "object") ↔ truthy (JInt 0) = true)
       ∧ (truthy (JInt 0) = true → post_data p !! "object" = Some (JInt 0))
       ∧ (truthy (JInt 0) = false → post_data p !! "object" = None)
       ∧ truthy (JInt 0) = false ∧ truthy JNull = false.
Proof.
  apply object_field_iff_truthy. intros e Hextra. discriminate Hextra.
Defined.

(** C9 as stated fails: without an [object_id], an [extra] with an [object]
    puts one in the post. *)
Lemma object_field_counterexample :
  truthy JNull = false
  ∧ (λ p, post_data p !! "object") <$>
      wire (snd (request loads repr (scripted [ok "granted"])
                   "magicBox.getSerialNo" JNull JNull
                   (Some {[ "object" := JInt 5 ]}) None true start))
    = [Some (JInt 5)].
Proof. by vm_compute. Qed.


(** The answer of the scripted device to the challenge. *)
Lemma camera_challenged answers :
  challenged loads (scripted (ok "challenge" :: answers)) start
    (JStr "S1") (JStr "ABCDEF") (JStr "123456").
Proof. exists 200%Z, "challenge". eexists. by repeat split. Defined.

Lemma camera_hash_answered text answers response :
  loads text = Some response →
  hash_answered loads repr (scripted (ok "challenge" :: ok text :: answers))
    start (JStr "S1") (JStr "ABCDEF") (JStr "123456") response.
Proof. intros Hloads. by exists 200%Z, text. Defined.

(** C2: the digests of the known vector, as posted. *)
Lemma login_digest_witness :
  let device := scripted [ok "challenge"; ok "granted"; ok "time"] in
  let hash := hash_post repr camera (JStr "S1") (JStr "ABCDEF") (JStr "123456") in
  (∃ rest, wire (snd (login loads repr device start))
           = wire start ++ challenge_post camera :: hash :: rest)
  ∧ post_data hash !! "params"
    = Some (hash_params camera "8DD7FD6A38C23F46B1F10C06D84AAF23").
Proof.
  cbv zeta.
  destruct (login_digest loads repr
              (scripted [ok "challenge"; ok "granted"; ok "time"]) start
              (JStr "S1") (JStr "ABCDEF") (JStr "123456")
              (camera_challenged _)) as (Hwire & Hparams & _ & Hpwd & Hpass).
  split; [exact Hwire|].
  etransitivity; [exact Hparams|]. cbn [format].
  change (_username (self start)) with "admin".
  change (_password (self start)) with "secret".
  by rewrite Hpwd, Hpass.
Defined.



(** C10: a granted login whose time query is answered without a time. *)
Lemma login_asks_for_the_time_witness :
  let device := scripted [ok "challenge"; ok "granted"; ok "no time"] in
  let sent := [challenge_post camera;
               hash_post repr camera (JStr "S1") (JStr "ABCDEF") (JStr "123456");
               time_post camera (JStr "S1")] in
  wire (snd (login loads repr device start)) = wire start ++ sent
  ∧ (λ p, post_data p !! "id") <$> sent
    = [Some (JInt 1); Some (JInt 2); Some (JInt 3)]
  ∧ logged_in (self (snd (login loads repr device start))) = true
  ∧ ∃ e, fst (login loads repr device start) = Raise e.
Proof.
  cbv zeta.
  destruct (login_asks_for_the_time loads repr
              (scripted [ok "challenge"; ok "granted"; ok "no time"]) start
              (JStr "S1") (JStr "ABCDEF") (JStr "123456")
              {[ "result" := JBool true ]} (camera_challenged _)
              (camera_hash_answered "granted" _ _ eq_refl) eq_refl)
    as (Hwire & Hids & _ & Hlogged & _ & Hraise).
  split; [exact Hwire|]. split; [exact Hids|]. split; [exact Hlogged|].
  exact (Hraise 200%Z "no time" _ (KeyError "time") eq_refl eq_refl eq_refl).
Defined.

(** C5 as stated fails: when the login succeeds, the request right before
    the status query, and right before the control request, is the time
    query of [login], not a login request. *)
Lemma coaxial_status_counterexample :
  let method p := post_data p !! "method" in
  method <$>
    wire (snd (get_coaxial_control_io_status loads repr
                 (scripted [ok "challenge"; ok "granted"; ok "time";
                            ok "status"]) 0 in_session))
  = [Some (JStr "global.login"); Some (JStr "global.login");
     Some (JStr "global.getCurrentTime");
     Some (JStr "CoaxialControlIO.getStatus")]
  ∧ method <$>
      wire (snd (set_coaxial_control_io_status loads repr
                   (scripted [ok "challenge"; ok "granted"; ok "time";
                              ok "granted"; ok "challenge"; ok "granted";
                              ok "time"; ok "status"]) 0 1 1 2 in_session))
    = [Some (JStr "global.login"); Some (JStr "global.login");
       Some (JStr "global.getCurrentTime");
       Some (JStr "CoaxialControlIO.control");
       Some (JStr "global.login"); Some (JStr "global.login");
       Some (JStr "global.getCurrentTime");
       Some (JStr "CoaxialControlIO.getStatus")].
Proof. by vm_compute. Qed.

(** ** The further properties on the scripted device *)

(** X2: the session times out. *)
Lemma request_transport_failure_witness :
  fst (request loads repr (scripted [Failure (ClientError "timeout")])
         "magicBox.getSerialNo" JNull JNull None None true start)
  = Raise (ClientError "timeout").
Proof.
  by apply (request_transport_failure loads repr
              (scripted [Failure (ClientError "timeout")])).
Defined.

(** X3: a [result] of [0] passes the verification. *)
Lemma request_returns_unless_false_witness :
  fst (request loads_more repr (scripted [ok "zero"])
         "magicBox.getSerialNo" JNull JNull None None true start)
  = Return (JDict {[ "result" := JInt 0 ]}).
Proof.
  apply (request_returns_unless_false loads_more repr (scripted [ok "zero"])
           _ _ _ _ _ _ _ 200%Z "zero"); [reflexivity|reflexivity|].
  intros Hresult. vm_compute in Hresult. discriminate Hresult.
Defined.

(** X4: the body is a JSON list. *)
Lemma request_non_dict_response_witness :
  fst (request loads_more repr (scripted [ok "a list"])
         "magicBox.getSerialNo" JNull JNull None None true start)
  = Raise AttributeError
  ∧ fst (request loads_more repr (scripted [ok "a list"])
           "magicBox.getSerialNo" JNull JNull None None false start)
    = Return (JList [JInt 1; JInt 2]).
Proof.
  apply (request_non_dict_response loads_more repr (scripted [ok "a list"])
           _ _ _ _ _ _ 200%Z "a list"); [reflexivity|reflexivity|].
  intros d Hd. discriminate Hd.
Defined.

(** X5: empty [params] are sent. *)
Lemma params_field_iff_not_none_witness :
  envelope camera "configManager.getConfig" (JDict ∅) JNull None !! "params"
  = Some (JDict ∅).
Proof.
  apply (params_field_iff_not_none camera "configManager.getConfig" (JDict ∅)
           JNull None).
  - intros e He. discriminate He.
  - intros Hparams. discriminate Hparams.
Defined.

(** X6: the token held is sent. *)
Lemma session_field_iff_token_witness :
  envelope (self in_session) "magicBox.getSerialNo" JNull JNull None
    !! "session" = Some (JStr "S0").
Proof.
  apply (session_field_iff_token (self in_session) "magicBox.getSerialNo"
           JNull JNull None).
  intros e He. discriminate He.
Defined.

(** X7: no [password] in the envelope of a query. *)
Lemma envelope_has_no_other_key_witness :
  envelope (self in_session) "magicBox.getSerialNo" JNull JNull None
    !! "password" = None
  ∧ is_Some (envelope (self in_session) "magicBox.getSerialNo" JNull JNull
               None !! "method")
  ∧ is_Some (envelope (self in_session) "magicBox.getSerialNo" JNull JNull
               None !! "id").
Proof.
  apply (envelope_has_no_other_key (self in_session) "magicBox.getSerialNo"
           JNull JNull None "password").
  - intros Hk. unfold envelope_keys in Hk.
    repeat (apply elem_of_cons in Hk as [Hk|Hk]; [discriminate Hk|]).
    inversion Hk.
  - intros e He. discriminate He.
Defined.

(** X10: a login, a query and a request with an empty [url]. *)
Lemma posts_go_to_the_device_witness :
  let device := scripted [ok "challenge"; ok "granted"; ok "time";
                          ok "config"] in
  let ks := [call_login; call_get_device_name;
             call_request "magicBox.getSerialNo" JNull JNull None (Some "")
               true] in
  ∃ sent, wire (run_calls loads_more repr device ks start) = wire start ++ sent
          ∧ Forall (device_url (_base (self start))) sent.
Proof.
  cbv zeta. apply posts_go_to_the_device. repeat constructor.
Defined.

(** X12: the answer to the challenge has no [session]. *)
Lemma login_without_session_witness :
  login loads_more repr (scripted [ok "no session"]) start
  = (Raise (KeyError "session"),
     World (set_id 1 (set_session_id JNull (self start)))
           (wire start ++ [challenge_post (self start)])).
Proof.
  by apply (login_without_session loads_more repr (scripted [ok "no session"])
              start 200%Z "no session"
              {[ "params" := JDict {[ "realm" := JStr "ABCDEF";
                                      "random" := JStr "123456" ]} ]}).
Defined.

(** X13: the answer to the challenge has no realm. *)
Lemma login_without_realm_witness :
  login loads_more repr (scripted [ok "no realm"]) start
  = (Raise (KeyError "realm"),
     World (set_id 1 (set_session_id (JStr "S1") (self start)))
           (wire start ++ [challenge_post (self start)])).
Proof.
  by apply (login_without_realm loads_more repr (scripted [ok "no realm"])
              start 200%Z "no realm"
              (JDict {[ "session" := JStr "S1"; "params" := JDict ∅ ]})).
Defined.

(** X14: a refused login. *)
Lemma login_not_granted_keeps_token_witness :
  snd (login loads repr (scripted [ok "challenge"; ok "refused"]) start)
  = World (set_id 2 (set_session_id (JStr "S1") (self start)))
          (wire start ++
           [challenge_post (self start);
            hash_post repr (self start) (JStr "S1") (JStr "ABCDEF")
              (JStr "123456")]).
Proof.
  exact (login_not_granted_keeps_token loads repr _ start _ _ _ _
           (JBool false) (camera_challenged _)
           (camera_hash_answered "refused" [] _ eq_refl) eq_refl eq_refl).
Defined.

(** X16: the serial number query after a granted login. *)
Lemma granted_login_installs_token_witness :
  let w' := snd (login loads repr
                   (scripted [ok "challenge"; ok "granted"; ok "time"])
                   start) in
  _session_id (self w') = JStr "S1"
  ∧ _id (self w') = 3%Z
  ∧ logged_in (self w') = true
  ∧ post_data (request_post (self w') "magicBox.getSerialNo" JNull JNull None
                 None) !! "session" = Some (JStr "S1")
  ∧ post_data (request_post (self w') "magicBox.getSerialNo" JNull JNull None
                 None) !! "id" = Some (JInt 4).
Proof.
  exact (granted_login_installs_token loads repr _ start _ _ _ _
           (JBool true) "magicBox.getSerialNo" JNull JNull None
           (camera_challenged _)
           (camera_hash_answered "granted" _ _ eq_refl)
           eq_refl eq_refl eq_refl eq_refl).
Defined.

Lemma camera_challenged_more answers :
  challenged loads_more (scripted (ok "challenge" :: answers)) start
    (JStr "S1") (JStr "ABCDEF") (JStr "123456").
Proof. exists 200%Z, "challenge". eexists. by repeat split. Defined.

(** X17: the hash phase is answered with [result] 1. *)
Lemma login_accepts_result_one_witness :
  let device := scripted [ok "challenge"; ok "one"; ok "time"] in
  logged_in (self (snd (login loads_more repr device start))) = true
  ∧ wire (snd (login loads_more repr device start))
    = wire start ++
      [challenge_post (self start);
       hash_post repr (self start) (JStr "S1") (JStr "ABCDEF") (JStr "123456");
       time_post (self start) (JStr "S1")].
Proof.
  cbv zeta.
  apply (login_accepts_result_one loads_more repr _ start _ _ _
           {[ "result" := JInt 1 ]} (camera_challenged_more _)).
  - by exists 200%Z, "one".
  - reflexivity.
Defined.

(** X19: the speaker is on and the light is off. *)
Lemma status_decoding_witness :
  let resp :=
    JDict {[ "result" := JBool true;
             "params" :=
               JDict {[ "status" :=
                 JDict {[ "Speaker" := JStr "On";
                          "WhiteLight" := JStr "Off" ]} ]} ]} in
  ∃ s, new_CoaxialControlIOStatus resp = Return s
       ∧ api_response s = resp
       ∧ (speaker s = true ↔ JStr "On" = JStr "On")
       ∧ (white_light s = true ↔ JStr "Off" = JStr "On").
Proof.
  cbv zeta.
  by apply (status_decoding _
              (JDict {[ "status" :=
                 JDict {[ "Speaker" := JStr "On";
                          "WhiteLight" := JStr "Off" ]} ]})
              (JDict {[ "Speaker" := JStr "On"; "WhiteLight" := JStr "Off" ]})).
Defined.

(** X20: a response with a [result] only. *)
Lemma status_decoding_without_params_witness :
  new_CoaxialControlIOStatus (JDict {[ "result" := JBool true ]})
  = Raise (KeyError "params")
  ∧ new_CoaxialControlIOStatus JNull = Return (Status false false JNull).
Proof. by apply status_decoding_without_params. Defined.

(** X21: the serial number of the camera. *)
Lemma get_serial_number_result_witness :
  let q := request_post (self start) "magicBox.getSerialNo" JNull JNull None
             None in
  fst (get_serial_number loads_more repr (scripted [ok "serial"]) start)
  = Return (JStr "6J0A1B2PAG00001")
  ∧ wire (snd (get_serial_number loads_more repr (scripted [ok "serial"])
                 start)) = wire start ++ [q]
  ∧ post_data q !! "params" = None.
Proof.
  cbv zeta.
  apply (get_serial_number_result loads_more repr (scripted [ok "serial"])
           start 200%Z "serial"
           {[ "result" := JBool true;
              "params" := JDict {[ "sn" := JStr "6J0A1B2PAG00001" ]} ]}
           {[ "sn" := JStr "6J0A1B2PAG00001" ]});
    try reflexivity.
  intros Hresult. vm_compute in Hresult. discriminate Hresult.
Defined.

(** X22: an answer with empty [params]. *)
Lemma get_serial_number_missing_witness :
  fst (get_serial_number loads repr (scripted [ok "no time"]) start)
  = Raise (KeyError "sn")
  ∧ wire (snd (get_serial_number loads repr (scripted [ok "no time"]) start))
    = wire start ++ [request_post (self start) "magicBox.getSerialNo" JNull
                       JNull None None].
Proof.
  apply (get_serial_number_missing loads repr (scripted [ok "no time"])
           start 200%Z "no time"
           {[ "result" := JBool true; "params" := JDict ∅ ]} ∅);
    try reflexivity.
  intros Hresult. vm_compute in Hresult. discriminate Hresult.
Defined.

(** X23: the name of the camera. *)
Lemma get_device_name_result_witness :
  let q := request_post (self start) "configManager.getConfig"
             (JDict {[ "name" := JStr "General" ]}) JNull None None in
  fst (get_device_name loads_more repr (scripted [ok "config"]) start)
  = Return (JStr "Front door")
  ∧ wire (snd (get_device_name loads_more repr (scripted [ok "config"]) start))
    = wire start ++ [q]
  ∧ post_data q !! "params" = Some (JDict {[ "name" := JStr "General" ]}).
Proof.
  cbv zeta.
  apply (get_device_name_result loads_more repr (scripted [ok "config"])
           start 200%Z "config"
           {[ "result" := JBool true;
              "params" :=
                JDict {[ "table" :=
                  JDict {[ "MachineName" := JStr "Front door" ]} ]} ]}
           {[ "table" := JDict {[ "MachineName" := JStr "Front door" ]} ]}
           {[ "MachineName" := JStr "Front door" ]});
    try reflexivity.
  intros Hresult. vm_compute in Hresult. discriminate Hresult.
Defined.

(** X24: the status after a login that returned [False]. *)
Lemma get_coaxial_decodes_status_witness :
  let device := scripted [ok "challenge"; ok "unclear"; ok "status"] in
  fst (login loads repr device start) = Return (JBool false)
  ∧ fst (get_coaxial_control_io_status loads repr device 0 start)
    = new_CoaxialControlIOStatus
        (JDict {[ "result" := JBool true;
                  "params" :=
                    JDict {[ "status" :=
                      JDict {[ "Speaker" := JStr "On";
                               "WhiteLight" := JStr "Off" ]} ]} ]}).
Proof.
  cbv zeta. split; [by vm_compute|].
  apply (get_coaxial_decodes_status loads repr
           (scripted [ok "challenge"; ok "unclear"; ok "status"])
           0 start (JBool false) 200%Z "status");
    [by vm_compute|by vm_compute|reflexivity|].
  intros Hresult. vm_compute in Hresult. discriminate Hresult.
Defined.

(** X25: the control request is refused. *)
Lemma set_coaxial_stops_when_refused_witness :
  let device := scripted [ok "challenge"; ok "granted"; ok "time";
                          ok "refused"] in
  let q := request_post (self (snd (login loads repr device start)))
             "CoaxialControlIO.control" (control_params 0 1 1 2) JNull None
             None in
  fst (set_coaxial_control_io_status loads repr device 0 1 1 2 start)
  = Raise (ConnectionError
             ("API call failed: " +:+
              format repr (JDict {[ "result" := JBool false ]})))
  ∧ wire (snd (set_coaxial_control_io_status loads repr device 0 1 1 2 start))
    = wire (snd (login loads repr device start)) ++ [q].
Proof.
  cbv zeta.
  apply (set_coaxial_stops_when_refused loads repr
           (scripted [ok "challenge"; ok "granted"; ok "time"; ok "refused"])
           0 1 1 2 start
           (JDict {[ "result" := JBool true ]}) 200%Z "refused");
    [by vm_compute|by vm_compute|reflexivity|reflexivity].
Defined.

End Examples.
